(** * starfit-server: the request configuration built by [utils.Config]

    A shallow embedding of [roles/starfitweb/files/html/utils.py].  The
    constructor [Config.__init__] reads a CGI form, coerces it against a
    schema, derives further attributes, writes an uploaded file to [/tmp]
    and collects admission errors.  Python exceptions are an explicit
    [outcome]; the file system is threaded through as a finite map. *)

From Stdlib Require Import ZArith String Ascii List Bool Lia DecimalString.
From stdpp Require Import gmap strings list.

Local Open Scope Z_scope.

(** ** Python primitives used by the module *)

Module Py.

  (** [s.split(",")]: one token more than there are commas; the empty
      string splits into one empty token. *)
Fixpoint split_comma (s : string) : list string :=
  match s with
  | EmptyString => [EmptyString]
  | String c rest =>
      if Ascii.eqb c ","%char then EmptyString :: split_comma rest
      else match split_comma rest with
           | tok :: toks => String c tok :: toks
           | [] => [String c EmptyString]
           end
  end.

  (** [",".join(toks)] *)
Fixpoint join_comma (toks : list string) : string :=
  match toks with
  | [] => EmptyString
  | [tok] => tok
  | tok :: rest => tok +:+ String ","%char (join_comma rest)
  end.

Fixpoint has_comma (s : string) : bool :=
  match s with
  | EmptyString => false
  | String c rest => Ascii.eqb c ","%char || has_comma rest
  end.

  (** [b.startswith("/")] and [a.endswith("/")] *)
Definition startswith_sep (b : string) : bool :=
  match b with
  | String c _ => Ascii.eqb c "/"%char
  | EmptyString => false
  end.

Fixpoint endswith_sep (a : string) : bool :=
  match a with
  | EmptyString => false
  | String c EmptyString => Ascii.eqb c "/"%char
  | String _ rest => endswith_sep rest
  end.

  (** One round of the loop of [posixpath.join]: an absolute component
      replaces what was joined so far. *)
Definition join_step (path b : string) : string :=
  if startswith_sep b then b
  else if (String.eqb path EmptyString || endswith_sep path)%bool then path +:+ b
  else path +:+ "/" +:+ b.

  (** [os.path.join(a, *p)] *)
Definition os_path_join (a : string) (p : list string) : string :=
  fold_left join_step p a.

  (** Truth value of an [Optional[str]]: [None] and [""] are false. *)
Definition truthy (o : option string) : bool :=
  match o with
  | Some (String _ _) => true
  | _ => false
  end.

  (** [datetime]: the fields [strftime] reads. *)
Record datetime := {
  year : nat; month : nat; day : nat;
  hour : nat; minute : nat; second : nat
}.

  (** Decimal numeral without padding, as [%Y] prints a year. *)
Definition dec (n : nat) : string := NilEmpty.string_of_uint (Nat.to_uint n).

  (** Two-digit, zero-padded field. *)
Definition pad2 (n : nat) : string :=
  if (n <? 10)%nat then "0" +:+ dec n else dec n.

Definition directive (c : ascii) (t : datetime) : string :=
  if Ascii.eqb c "Y"%char then dec (year t)
  else if Ascii.eqb c "m"%char then pad2 (month t)
  else if Ascii.eqb c "d"%char then pad2 (day t)
  else if Ascii.eqb c "H"%char then pad2 (hour t)
  else if Ascii.eqb c "M"%char then pad2 (minute t)
  else if Ascii.eqb c "S"%char then pad2 (second t)
  else String "%"%char (String c EmptyString).

  (** [t.strftime(fmt)] for the directives [%Y %m %d %H %M %S]; other
      characters are copied. *)
Fixpoint strftime (fmt : string) (t : datetime) : string :=
  match fmt with
  | EmptyString => EmptyString
  | String c rest =>
      if Ascii.eqb c "%"%char then
        match rest with
        | String d rest' => directive d t +:+ strftime rest' t
        | EmptyString => String c EmptyString
        end
      else String c (strftime rest t)
  end.

End Py.

(** ** Data model *)

(** The [stardata] entry of the form: [filename] is [None] or empty when
    no file was chosen; [file.read()] gives the content. *)
Record Upload := {
  up_filename : option string;
  up_content : list Byte.byte
}.

(** [cgi.FieldStorage]: [form.getfirst(key)] is [None] for an absent key;
    [form["stardata"]] raises [KeyError] when the entry is absent. *)
Record FieldStorage := {
  getfirst : string → option string;
  stardata : option Upload
}.

(** [yaml.safe_load(open("config.yml"))] *)
Record WebConfig := { db_dir : string }.

(** The normalised document [v.document] of a successful validation. *)
Module Doc.
Record t := {
  email : string; algorithm : string; sol_size : Z;
  z_min : Z; z_max : Z; combine_mode : Z;
  pop_size : Z; time_limit : Z; database : string;
  fixed : Z; plotformat : string;
  z_exclude : string; z_lolim : string; cdf : bool
}.
End Doc.

(** The attributes of a constructed [Config]. *)
Record Config := {
  start_time : string;
  email : string; algorithm : string; sol_size : Z;
  z_min : Z; z_max : Z; combine_mode : Z;
  pop_size : Z; time_limit : Z; database : string;
  fixed : Z; plotformat : string;
  z_exclude : list Z; z_lolim : list Z; cdf : bool;
  filepath : string; filename : string; dbpath : string;
  mail : bool; time_eta : string;
  errors : list string
}.

Definition set_errors (self : Config) (e : list string) : Config :=
  {| start_time := start_time self;
     email := email self; algorithm := algorithm self;
     sol_size := sol_size self;
     z_min := z_min self; z_max := z_max self;
     combine_mode := combine_mode self;
     pop_size := pop_size self; time_limit := time_limit self;
     database := database self;
     fixed := fixed self; plotformat := plotformat self;
     z_exclude := z_exclude self; z_lolim := z_lolim self; cdf := cdf self;
     filepath := filepath self; filename := filename self;
     dbpath := dbpath self;
     mail := mail self; time_eta := time_eta self;
     errors := e |}.

(** Exceptions that leave the constructor. *)
Inductive exn :=
| RuntimeError (msg : string)
| SystemExit.

Inductive outcome (A : Type) :=
| Return (a : A)
| Raise (e : exn).
Arguments Return {A} a.
Arguments Raise {A} e.

(** Files written so far, by path. *)
Abbreviation filesystem := (gmap string (list Byte.byte)).

(** ** Schema coercions ([cerberus] with [coerce] and [require_all]) *)

(** [str(v)]: never fails; [str(None)] is the text [None]. *)
Definition coerce_str (v : option string) : option string :=
  Some (match v with Some s => s | None => "None" end).

(** [bool(v)]: never fails; [None] and the empty text are false. *)
Definition coerce_bool (v : option string) : option bool :=
  Some (Py.truthy v).

(** The admission messages of [_check_for_errors]. *)
Definition msg_star := "There is something wrong with this stellar data.".
Definition msg_sol_size := "Gene sizes greater than 10 are not supported.".
Definition msg_pop_size := "Population sizes over 1000 are not supported.".
Definition msg_time_limit := "Results must be emailed for time limit > 60s.".
Definition msg_email (email : string) := email +:+ " is not a valid email.".
Definition msg_pdf := "PDF plot format must be emailed.".

(** The text of [RuntimeError('Bad choice of "algorithm"')]. *)
Definition msg_bad_algorithm :=
  "Bad choice of " +:+ String "034"%char ("algorithm" +:+ String "034"%char "").

Definition default_filename := "HE1327-2326.dat".

Definition is_algorithm (a : string) : bool :=
  (String.eqb a "ga" || String.eqb a "double" || String.eqb a "single")%bool.

Section Collaborators.

  (** [I(sym).Z]: the atomic number of an element symbol, [0] if unknown. *)
  Variable ion_Z : string → Z.
  (** [Star(name, silent=True)]: [true] when the loader returns, [false]
      when it raises anything (the caller's [except:] is bare). *)
  Variable Star_ok : string → bool.
  (** [validate_email(addr, check_deliverability=True)]: [true] when it
      returns, [false] when it raises [EmailNotValidError], the one
      exception of its contract. *)
  Variable validate_email_ok : string → bool.
  (** [starfit.autils.human.time2human] *)
  Variable time2human : Z → string.
  (** Python's [int(s)] on text; [None] when it raises [ValueError]. *)
  Variable py_int : string → option Z.
  (** [starfit.DATA_DIR] *)
  Variable DATA_DIR : string.

  (** [int(v)]: [int(None)] raises [TypeError], a coercion failure. *)
Definition coerce_int (v : option string) : option Z :=
  match v with Some s => py_int s | None => None end.

  (** [v.validate(conf, self.schema)], with [conf[key] = form.getfirst(key)]
      for every key of the schema: [None] is a failed validation, [Some]
      the normalised document. *)
Definition validate (form : FieldStorage) : option Doc.t :=
  email ← coerce_str (getfirst form "email");
  algorithm ← coerce_str (getfirst form "algorithm");
  sol_size ← coerce_int (getfirst form "sol_size");
  z_min ← coerce_int (getfirst form "z_min");
  z_max ← coerce_int (getfirst form "z_max");
  combine_mode ← coerce_int (getfirst form "combine_mode");
  pop_size ← coerce_int (getfirst form "pop_size");
  time_limit ← coerce_int (getfirst form "time_limit");
  database ← coerce_str (getfirst form "database");
  fixed ← coerce_int (getfirst form "fixed");
  plotformat ← coerce_str (getfirst form "plotformat");
  z_exclude ← coerce_str (getfirst form "z_exclude");
  z_lolim ← coerce_str (getfirst form "z_lolim");
  cdf ← coerce_bool (getfirst form "cdf");
  Some {| Doc.email := email; Doc.algorithm := algorithm;
          Doc.sol_size := sol_size; Doc.z_min := z_min; Doc.z_max := z_max;
          Doc.combine_mode := combine_mode; Doc.pop_size := pop_size;
          Doc.time_limit := time_limit; Doc.database := database;
          Doc.fixed := fixed; Doc.plotformat := plotformat;
          Doc.z_exclude := z_exclude; Doc.z_lolim := z_lolim;
          Doc.cdf := cdf |}.

  (** [[z for z in [I(i).Z for i in s.split(",")] if z != 0]] *)
Definition parse_elements (s : string) : list Z :=
  filter (λ z, z ≠ 0) (map ion_Z (Py.split_comma s)).

  (** [Config._check_for_errors] *)
Definition _check_for_errors (self : Config) : list string :=
  let errors := [] in
  let errors :=
    if Star_ok (filename self) then errors else errors ++ [msg_star] in
  let errors :=
    if sol_size self >? 10 then errors ++ [msg_sol_size] else errors in
  let errors :=
    if pop_size self >? 1000 then errors ++ [msg_pop_size] else errors in
  let errors :=
    if (time_limit self >? 60) && negb (mail self)
    then errors ++ [msg_time_limit] else errors in
  let errors :=
    if mail self then
      if validate_email_ok (email self) then errors
      else errors ++ [msg_email (email self)]
    else errors in
  let errors :=
    if String.eqb (plotformat self) "pdf" && negb (mail self)
    then errors ++ [msg_pdf] else errors in
  errors.

  (** Lines 94-97: the time limit the algorithm imposes. *)
Definition override_time_limit (algorithm : string) (time_limit : Z) : Z :=
  if String.eqb algorithm "double" then 60 * 15
  else if String.eqb algorithm "single" then 0
  else time_limit.

  (** Lines 110-113: the solution size the algorithm imposes. *)
Definition override_sol_size (algorithm : string) (sol_size : Z) : Z :=
  if String.eqb algorithm "double" then 2
  else if String.eqb algorithm "single" then 1
  else sol_size.

  (** Lines 99-104: when the results are to be expected. *)
Definition eta_of (time_limit : Z) : string :=
  if time_limit <? 1 then "now"
  else if time_limit >? 600 then "in more than 10 minutes"
  else "in " +:+ time2human time_limit.

  (** [Config.__init__]: the outcome and the file system it leaves.
      Opening and writing the temporary file is taken to succeed. *)
Definition Config_init (web_config : WebConfig) (now : Py.datetime)
    (form : FieldStorage) (fs : filesystem) : outcome Config * filesystem :=
  match stardata form with
  | None => (Raise SystemExit, fs)
  | Some stardata =>
    let start_time := Py.strftime "%Y-%M-%d-%H-%M-%S" now in
    match validate form with
    | None => (Raise (RuntimeError "Bad form input"), fs)
    | Some doc =>
      let z_exclude := parse_elements (Doc.z_exclude doc) in
      let z_lolim := parse_elements (Doc.z_lolim doc) in
      let '(filepath, filename, fs) :=
        match up_filename stardata with
        | Some (String _ _ as name) =>
            let filepath := Py.os_path_join "/tmp" [name +:+ start_time] in
            (filepath, name, <[filepath := up_content stardata]> fs)
        | _ =>
            let filename := default_filename in
            (Py.os_path_join DATA_DIR ["stars"; filename], filename, fs)
        end in
      let dbpath := Py.os_path_join (db_dir web_config) [Doc.database doc] in
      let mail := negb (String.eqb (Doc.email doc) "") in
      let algorithm := Doc.algorithm doc in
      let time_limit := override_time_limit algorithm (Doc.time_limit doc) in
      let eta := eta_of time_limit in
      if negb (is_algorithm algorithm)
      then (Raise (RuntimeError msg_bad_algorithm), fs)
      else
        let sol_size := override_sol_size algorithm (Doc.sol_size doc) in
        let self :=
          {| start_time := start_time;
             email := Doc.email doc; algorithm := algorithm;
             sol_size := sol_size;
             z_min := Doc.z_min doc; z_max := Doc.z_max doc;
             combine_mode := Doc.combine_mode doc;
             pop_size := Doc.pop_size doc; time_limit := time_limit;
             database := Doc.database doc;
             fixed := Doc.fixed doc; plotformat := Doc.plotformat doc;
             z_exclude := z_exclude; z_lolim := z_lolim;
             cdf := Doc.cdf doc;
             filepath := filepath; filename := filename; dbpath := dbpath;
             mail := mail; time_eta := eta;
             errors := [] |} in
        (Return (set_errors self (_check_for_errors self)), fs)
    end
  end.

  (** A valid raw input: the [stardata] entry is present, the schema
      validates and the algorithm is one of the three. *)
Definition valid_form (form : FieldStorage) : bool :=
  match stardata form, validate form with
  | Some _, Some doc => is_algorithm (Doc.algorithm doc)
  | _, _ => false
  end.

  (** The admission checks as the specification lists them: six rules,
      each a condition on the configuration (does the rule fail?) with
      its own message. *)
Definition admission_rules (self : Config) : list (bool * string) :=
  [ (negb (Star_ok (filename self)), msg_star);
    (sol_size self >? 10, msg_sol_size);
    (pop_size self >? 1000, msg_pop_size);
    ((time_limit self >? 60) && negb (mail self), msg_time_limit);
    (mail self && negb (validate_email_ok (email self)),
     msg_email (email self));
    (String.eqb (plotformat self) "pdf" && negb (mail self), msg_pdf) ].

  (** The messages of the failing rules, in the order of the rules. *)
Definition admission_errors (self : Config) : list string :=
  (filter (λ r, r.1 = true) (admission_rules self)).*2.

  (** The attributes [__init__] assigns, statement by statement, from the
      upload [up] and the validated document [doc]; [fs'] is the file
      system after the write. *)
Record built (wc : WebConfig) (now : Py.datetime) (up : Upload)
    (doc : Doc.t) (fs : filesystem) (cfg : Config) (fs' : filesystem)
    : Prop := {
  b_start_time : start_time cfg = Py.strftime "%Y-%M-%d-%H-%M-%S" now;
  b_email : email cfg = Doc.email doc;
  b_algorithm : algorithm cfg = Doc.algorithm doc;
  b_sol_size :
    sol_size cfg = override_sol_size (Doc.algorithm doc) (Doc.sol_size doc);
  b_pop_size : pop_size cfg = Doc.pop_size doc;
  b_time_limit :
    time_limit cfg
    = override_time_limit (Doc.algorithm doc) (Doc.time_limit doc);
  b_database : database cfg = Doc.database doc;
  b_plotformat : plotformat cfg = Doc.plotformat doc;
  b_z_exclude : z_exclude cfg = parse_elements (Doc.z_exclude doc);
  b_z_lolim : z_lolim cfg = parse_elements (Doc.z_lolim doc);
  b_dbpath : dbpath cfg = Py.os_path_join (db_dir wc) [Doc.database doc];
  b_mail : mail cfg = negb (String.eqb (Doc.email doc) "");
  b_time_eta : time_eta cfg = eta_of (time_limit cfg);
  b_errors : errors cfg = _check_for_errors cfg;
  b_file :
    if Py.truthy (up_filename up) then
      ∃ name, up_filename up = Some name ∧ filename cfg = name ∧
        filepath cfg = Py.os_path_join "/tmp" [name +:+ start_time cfg] ∧
        fs' = <[filepath cfg := up_content up]> fs
    else
      filename cfg = default_filename ∧
      filepath cfg = Py.os_path_join DATA_DIR ["stars"; default_filename] ∧
      fs' = fs
}.

End Collaborators.

(** The same request with other bytes in the uploaded file. *)
Definition with_upload_content (form : FieldStorage)
    (content : list Byte.byte) : FieldStorage :=
  {| getfirst := getfirst form;
     stardata := (λ up, {| up_filename := up_filename up;
                           up_content := content |}) <$> stardata form |}.

(** The last two characters of a text, last one first. *)
Definition tail2 (s : string) : list ascii :=
  take 2 (reverse (list_ascii_of_string s)).

(** How an element list [l] comes from the raw text [s]: the tokens are
    the comma-separated pieces of [s]; [l] is the tokens' atomic numbers
    in their order, without the zeros and with every other number as
    often as it was written. *)
Definition elements_of (ion_Z : string → Z) (s : string) (l : list Z)
    : Prop :=
  let toks := Py.split_comma s in
  let zs := map ion_Z toks in
  Py.join_comma toks = s ∧
  Forall (λ tok, Py.has_comma tok = false) toks ∧
  l `sublist_of` zs ∧
  (0 ∉ l) ∧
  (∀ z, z ≠ 0 → count_occ Z.eq_dec l z = count_occ Z.eq_dec zs z) ∧
  (length l + count_occ Z.eq_dec zs 0%Z = length zs)%nat.

(** ** Sample collaborators and requests, to run the model *)

Module Demo.

Definition ion_Z (sym : string) : Z :=
  if String.eqb sym "C" then 6
  else if String.eqb sym "N" then 7
  else if String.eqb sym "O" then 8
  else if String.eqb sym "Fe" then 26
  else 0.

Definition Star_ok (name : string) : bool := String.eqb name default_filename.

Fixpoint has_at (s : string) : bool :=
  match s with
  | EmptyString => false
  | String c rest => Ascii.eqb c "@"%char || has_at rest
  end.

Definition validate_email_ok (addr : string) : bool := has_at addr.

Definition time2human (t : Z) : string := Py.dec (Z.to_nat t) +:+ " s".

Fixpoint digits (acc : Z) (s : string) : option Z :=
  match s with
  | EmptyString => Some acc
  | String c rest =>
      match Ascii.is_nat c with
      | Some d => digits (10 * acc + Z.of_nat d) rest
      | None => None
      end
  end.

  (** Plain decimal numerals with an optional minus sign, a part of what
      [int(s)] accepts. *)
Definition py_int (s : string) : option Z :=
  match s with
  | EmptyString => None
  | String "-"%char (String _ _ as rest) => Z.opp <$> digits 0 rest
  | _ => digits 0 s
  end.

Definition DATA_DIR := "/opt/starfit/data".

Definition web_config := {| db_dir := "/srv/starfit/db" |}.

  (** 15 March 2024, 10:27:45 *)
Definition now :=
  {| Py.year := 2024; Py.month := 3; Py.day := 15;
     Py.hour := 10; Py.minute := 27; Py.second := 45 |}.

Fixpoint lookup_field (fields : list (string * string)) (key : string)
    : option string :=
  match fields with
  | [] => None
  | (k, v) :: rest => if String.eqb k key then Some v else lookup_field rest key
  end.

Definition mk_form (fields : list (string * string)) (up : option Upload)
    : FieldStorage :=
  {| getfirst := lookup_field fields; stardata := up |}.

Definition no_upload := {| up_filename := Some ""; up_content := [] |}.

Definition star_upload :=
  {| up_filename := Some "star.dat";
     up_content := [Byte.x48; Byte.x45; Byte.x0a] |}.

  (** A complete form; [algorithm], [sol_size], [time_limit], [email],
      [database] and [plotformat] vary. *)
Definition fields (algorithm sol_size time_limit email database plotformat
    : string) : list (string * string) :=
  [("email", email); ("algorithm", algorithm); ("sol_size", sol_size);
   ("z_min", "1"); ("z_max", "30"); ("combine_mode", "1");
   ("pop_size", "200"); ("time_limit", time_limit);
   ("database", database); ("fixed", "0"); ("plotformat", plotformat);
   ("z_exclude", "C,Xx,O,C"); ("z_lolim", ""); ("cdf", "1")].

Definition init (form : FieldStorage) : outcome Config * filesystem :=
  Config_init ion_Z Star_ok validate_email_ok time2human py_int DATA_DIR
    web_config now form ∅.

  (** [single], with a solution size and a time limit of the user's. *)
Definition single_form :=
  mk_form (fields "single" "7" "500" "" "znuc.h5" "svg") (Some no_upload).

Definition double_form :=
  mk_form (fields "double" "7" "5" "me@example.org" "znuc.h5" "svg")
    (Some no_upload).

  (** [ga] with an upload, two minutes, no address and a PDF plot. *)
Definition ga_form :=
  mk_form (fields "ga" "3" "120" "" "znuc.h5" "pdf") (Some star_upload).

Definition bad_algorithm_form :=
  mk_form (fields "simplex" "3" "120" "" "znuc.h5" "svg") (Some star_upload).

  (** A [database] field that is an absolute path. *)
Definition absolute_database_form :=
  mk_form (fields "ga" "3" "10" "" "/etc/passwd" "svg") (Some no_upload).

  (** No [stardata] entry, and no other field either. *)
Definition empty_form := mk_form [] None.

  (** A [sol_size] that is no integer, with an upload. *)
Definition bad_integer_form :=
  mk_form (fields "ga" "seven" "120" "" "znuc.h5" "svg") (Some star_upload).

  (** [ga_form] with a field the schema does not know. *)
Definition extra_field_form :=
  mk_form (fields "ga" "3" "120" "" "znuc.h5" "pdf" ++ [("token", "abc")])
    (Some star_upload).



  (** Another file under the name of [star_upload]. *)
Definition other_star_upload :=
  {| up_filename := Some "star.dat"; up_content := [Byte.x4f; Byte.x0a] |}.

Definition other_ga_form :=
  mk_form (fields "ga" "3" "10" "you@example.org" "znuc.h5" "svg")
    (Some other_star_upload).

  (** Everything out of bounds, with an address that does not validate. *)
Definition refused_form :=
  mk_form [("email", "nobody"); ("algorithm", "ga"); ("sol_size", "50");
           ("z_min", "1"); ("z_max", "30"); ("combine_mode", "2");
           ("pop_size", "5000"); ("time_limit", "120");
           ("database", "znuc.h5"); ("fixed", "0"); ("plotformat", "pdf");
           ("z_exclude", ""); ("z_lolim", "Fe"); ("cdf", "0")]
    (Some star_upload).

  (** The built-in data set, ten seconds, no address, an SVG plot. *)
Definition admitted_form :=
  mk_form (fields "ga" "3" "10" "" "znuc.h5" "svg") (Some no_upload).

Definition double_no_email_form :=
  mk_form (fields "double" "50" "5" "" "znuc.h5" "svg") (Some no_upload).

Definition element_symbol (z : Z) : string :=
  if z =? 6 then "C" else if z =? 7 then "N" else if z =? 8 then "O"
  else if z =? 26 then "Fe" else "".

  (** The bytes of [<svg/>]. *)
Definition svg_bytes : list Byte.byte :=
  [Byte.x3c; Byte.x73; Byte.x76; Byte.x67; Byte.x2f; Byte.x3e].

End Demo.

(** ** The read-only queries of [Config] *)

(** The keys of [Config.schema], in its order, and those declared
    [integer]. *)
Definition schema_keys : list string :=
  ["email"; "algorithm"; "sol_size"; "z_min"; "z_max"; "combine_mode";
   "pop_size"; "time_limit"; "database"; "fixed"; "plotformat";
   "z_exclude"; "z_lolim"; "cdf"].

Definition integer_keys : list string :=
  ["sol_size"; "z_min"; "z_max"; "combine_mode"; "pop_size"; "time_limit";
   "fixed"].

(** [sep.join(parts)] *)
Fixpoint str_join (sep : string) (parts : list string) : string :=
  match parts with
  | [] => ""
  | [part] => part
  | part :: rest => part +:+ sep +:+ str_join sep rest
  end.

(** [Config.combine_elements]: the preset element combinations. *)
Definition combine_elements (self : Config) : list (list Z) :=
  if combine_mode self =? 1 then [[6; 7]]
  else if combine_mode self =? 2 then [[6; 7; 8]]
  else [[]].


Section Symbols.

  (** [I(z).element_symbol()]: the symbol of an atomic number. *)
  Variable element_symbol : Z → string.

  (** [Config.combine_elements_str] *)
Definition combine_elements_str (self : Config) : string :=
  let group_strings :=
    fold_left
      (λ group_strings group,
         group_strings ++ [str_join "+" (map element_symbol group)])
      (combine_elements self) [] in
  let output := str_join ", " group_strings in
  if String.eqb output "" then "None" else output.

  (** [Config.get_exc_string] *)
Definition get_exc_string (self : Config) : string :=
  let exc_string := str_join ", " (map element_symbol (z_exclude self)) in
  if String.eqb exc_string "" then "None" else exc_string.

  (** [Config.get_lol_string] *)
Definition get_lol_string (self : Config) : string :=
  let lol_string := str_join ", " (map element_symbol (z_lolim self)) in
  if String.eqb lol_string "" then "None" else lol_string.

End Symbols.

(** ** The image tag *)

Module Base64.

Definition alphabet : string :=
  "ABCDEFGHIJKLMNOPQRSTUVWXYZabcdefghijklmnopqrstuvwxyz0123456789+/".

  (** The character of a 6-bit value. *)
Definition sextet (n : N) : ascii :=
  nth (N.to_nat n) (list_ascii_of_string alphabet) "="%char.

  (** [base64.b64encode(data)], RFC 4648: three bytes give four
      characters; one or two remaining bytes are padded with [=]. *)
Fixpoint b64encode (data : list Byte.byte) : string :=
  match data with
  | [] => ""
  | [a] =>
      let a := Byte.to_N a in
      String (sextet (a / 4)) (String (sextet (a mod 4 * 16)) "==")
  | [a; b] =>
      let a := Byte.to_N a in
      let b := Byte.to_N b in
      String (sextet (a / 4))
        (String (sextet (a mod 4 * 16 + b / 16))
           (String (sextet (b mod 16 * 4)) "="))
  | a :: b :: c :: rest =>
      let a := Byte.to_N a in
      let b := Byte.to_N b in
      let c := Byte.to_N c in
      String (sextet (a / 4))
        (String (sextet (a mod 4 * 16 + b / 16))
           (String (sextet (b mod 16 * 4 + c / 64))
              (String (sextet (c mod 64)) (b64encode rest))))
  end%N.

  (** The value of a character of the alphabet, for decoding. *)
Fixpoint index_of (c : ascii) (table : list ascii) : N :=
  match table with
  | [] => 0
  | x :: rest => if Ascii.eqb x c then 0 else N.succ (index_of c rest)
  end%N.

Definition unsextet (c : ascii) : N :=
  index_of c (list_ascii_of_string alphabet).

Definition byte_of (n : N) : Byte.byte := default Byte.x00 (Byte.of_N n).

  (** A character of the alphabet, or the padding. *)
Definition is_b64char (c : ascii) : bool :=
  existsb (Ascii.eqb c) (list_ascii_of_string (alphabet +:+ "=")).

  (** The inverse of [b64encode] on padded text. *)
Fixpoint b64decode (text : string) : list Byte.byte :=
  match text with
  | String c1 (String c2 (String c3 (String c4 rest))) =>
      let i1 := unsextet c1 in
      let i2 := unsextet c2 in
      let i3 := unsextet c3 in
      let i4 := unsextet c4 in
      if Ascii.eqb c3 "="%char then [byte_of (i1 * 4 + i2 / 16)]
      else if Ascii.eqb c4 "="%char then
        [byte_of (i1 * 4 + i2 / 16); byte_of (i2 mod 16 * 16 + i3 / 4)]
      else
        byte_of (i1 * 4 + i2 / 16) :: byte_of (i2 mod 16 * 16 + i3 / 4)
        :: byte_of (i3 mod 4 * 64 + i4) :: b64decode rest
  | _ => []
  end%N.

End Base64.

(** The quote [repr] puts around a [bytes] value: the double quote when
    the value holds a single quote and no double quote. *)
Definition repr_quote (value : string) : ascii :=
  let has c := existsb (Ascii.eqb c) (list_ascii_of_string value) in
  if has "'"%char && negb (has "034"%char) then "034"%char else "'"%char.

Definition hex_digit (n : N) : ascii :=
  nth (N.to_nat n) (list_ascii_of_string "0123456789abcdef") "0"%char.

(** How [repr] writes one byte. *)
Definition repr_byte (quote c : ascii) : string :=
  if Ascii.eqb c quote || Ascii.eqb c "\"%char then String "\"%char (String c "")
  else if Ascii.eqb c "009"%char then "\t"
  else if Ascii.eqb c "010"%char then "\n"
  else if Ascii.eqb c "013"%char then "\r"
  else if (N_of_ascii c <? 32)%N || (127 <=? N_of_ascii c)%N then
    String "\"%char
      (String "x"%char
         (String (hex_digit (N_of_ascii c / 16))
            (String (hex_digit (N_of_ascii c mod 16)) "")))
  else String c "".

(** [str(value)] of a [bytes] value, which is its [repr]. *)
Definition bytes_repr (value : string) : string :=
  let quote := repr_quote value in
  String "b"%char
    (String quote
       (fold_right (λ c out, repr_byte quote c +:+ out) (String quote "")
          (list_ascii_of_string value))).

(** [s[2:-1]] *)
Definition slice_2_m1 (s : string) : string :=
  string_of_list_ascii (removelast (drop 2 (list_ascii_of_string s))).

(** The f-string of [convert_img_to_b64_tag]. *)
Definition object_tag (typestr plot_b64 : string) : string :=
  "<object data=" +:+ String "034"%char
    ("data:image/" +:+ typestr +:+ ";base64," +:+ plot_b64 +:+
     String "034"%char
       (" type=" +:+ String "034"%char
          ("image/" +:+ typestr +:+
           String "034"%char
             (" width=" +:+ String "034"%char
                ("700" +:+ String "034"%char "></object>"))))).

(** [convert_img_to_b64_tag(file, format)], with [data] the bytes of
    [file.getvalue()]. *)
Definition convert_img_to_b64_tag (data : list Byte.byte) (format : string)
    : string :=
  let plot_b64 := slice_2_m1 (bytes_repr (Base64.b64encode data)) in
  let typestr := format in
  let typestr := if String.eqb format "svg" then typestr +:+ "+xml"
                 else typestr in
  object_tag typestr plot_b64.

(** ** Facts about the Python primitives *)

Example split_comma_trailing :
  Py.split_comma "C,Xx,,O," = ["C"; "Xx"; ""; "O"; ""].
Proof. reflexivity. Qed.

Example split_comma_empty : Py.split_comma "" = [""].
Proof. reflexivity. Qed.

Example os_path_join_relative :
  Py.os_path_join "/srv/db" ["znuc.h5"] = "/srv/db/znuc.h5"
  ∧ Py.os_path_join "/srv/db/" ["znuc.h5"] = "/srv/db/znuc.h5"
  ∧ Py.os_path_join "" ["znuc.h5"] = "znuc.h5".
Proof. by repeat split. Qed.

Example os_path_join_absolute :
  Py.os_path_join "/srv/db" ["sub"; "/etc/passwd"] = "/etc/passwd".
Proof. reflexivity. Qed.

Example parse_elements_sample :
  parse_elements Demo.ion_Z "C,N,O" = [6; 7; 8]
  ∧ parse_elements Demo.ion_Z "C,Xx,O" = [6; 8].
Proof. by split. Qed.

Lemma split_comma_cons (s : string) :
  ∃ tok toks, Py.split_comma s = tok :: toks.
Proof.
  destruct s as [|c rest]; simpl; [by eauto|].
  destruct (Ascii.eqb c ","); [by eauto|].
  destruct (Py.split_comma rest); by eauto.
Qed.

(** Joining the tokens with commas gives the text back. *)
Lemma join_split_comma (s : string) : Py.join_comma (Py.split_comma s) = s.
Proof.
  induction s as [|c rest IH]; [done|]. simpl.
  destruct (Ascii.eqb_spec c ",") as [->|Hc].
  - destruct (split_comma_cons rest) as (tok & toks & E).
    rewrite E in IH |- *.
    change (Py.join_comma ("" :: tok :: toks))
      with (String "," (Py.join_comma (tok :: toks))).
    by rewrite IH.
  - destruct (split_comma_cons rest) as (tok & toks & E).
    rewrite E in IH |- *. destruct toks as [|tok' toks].
    + simpl in *. by rewrite IH.
    + change (Py.join_comma (String c tok :: tok' :: toks))
        with (String c (Py.join_comma (tok :: tok' :: toks))).
      by rewrite IH.
Qed.

(** No token contains a comma. *)
Lemma split_comma_tokens (s : string) :
  Forall (λ tok, Py.has_comma tok = false) (Py.split_comma s).
Proof.
  induction s as [|c rest IH]; simpl; [by repeat constructor|].
  destruct (Ascii.eqb_spec c ",") as [->|Hc]; [by constructor|].
  destruct (Py.split_comma rest) as [|tok toks]; simpl.
  - repeat constructor. simpl. by destruct (Ascii.eqb_spec c ",").
  - inversion IH; subst. constructor; [|done].
    simpl. by destruct (Ascii.eqb_spec c ",").
Qed.

Lemma length_append (a b : string) :
  String.length (a +:+ b) = (String.length a + String.length b)%nat.
Proof. induction a; simpl; [done|]. by rewrite IHa. Qed.

Lemma append_nil_r (a : string) : a +:+ "" = a.
Proof.
  induction a as [|x a IH]; [done|].
  change (String x (a +:+ "") = String x a). by rewrite IH.
Qed.

Lemma append_assoc (a b c : string) : (a +:+ b) +:+ c = a +:+ (b +:+ c).
Proof.
  induction a as [|x a IH]; [done|].
  change (String x ((a +:+ b) +:+ c) = String x (a +:+ (b +:+ c))).
  by rewrite IH.
Qed.

Lemma chars_append (a b : string) :
  list_ascii_of_string (a +:+ b)
  = list_ascii_of_string a ++ list_ascii_of_string b.
Proof. induction a; simpl; [done|]. by rewrite IHa. Qed.

(** [join_step] on a relative component appends it, with at most one
    separator in between. *)
Lemma join_step_relative (path b : string) :
  Py.startswith_sep b = false →
  Py.join_step path b
  = if (String.eqb path "" || Py.endswith_sep path)%bool
    then path +:+ b else path +:+ "/" +:+ b.
Proof. intros H. unfold Py.join_step. by rewrite H. Qed.

Lemma join_step_absolute (path b : string) :
  Py.startswith_sep b = true → Py.join_step path b = b.
Proof. intros H. unfold Py.join_step. by rewrite H. Qed.

(** A joined path is at least as long as its last component. *)
Lemma join_step_length (path b : string) :
  (String.length b ≤ String.length (Py.join_step path b))%nat.
Proof.
  unfold Py.join_step. destruct (Py.startswith_sep b); [lia|].
  destruct (_ || _)%bool; rewrite !length_append; lia.
Qed.

Lemma join_step_length_relative (path b : string) :
  Py.startswith_sep b = false → path ≠ "" →
  (String.length b < String.length (Py.join_step path b))%nat.
Proof.
  intros Hb Hp. rewrite join_step_relative by done.
  destruct path as [|c p]; [done|].
  destruct (_ || _)%bool; rewrite !length_append; simpl; lia.
Qed.

(** The start time is never empty: the format has literal dashes. *)
Lemma start_time_length (t : Py.datetime) :
  (5 ≤ String.length (Py.strftime "%Y-%M-%d-%H-%M-%S" t))%nat.
Proof.
  cbn [Py.strftime Ascii.eqb Bool.eqb]. simpl Py.directive.
  repeat (rewrite length_append; simpl String.length). lia.
Qed.

(** ** The constructor on valid and invalid requests *)

Lemma tail2_msg_email (e : string) : tail2 (msg_email e) = ["."; "l"]%char.
Proof.
  unfold tail2, msg_email. rewrite chars_append, reverse_app.
  reflexivity.
Qed.

(** The message about the address is none of the fixed messages. *)
Lemma msg_email_fixed (e m : string) :
  m ∈ [msg_star; msg_sol_size; msg_pop_size; msg_time_limit; msg_pdf] →
  msg_email e ≠ m.
Proof.
  intros Hm He. apply (f_equal tail2) in He. rewrite tail2_msg_email in He.
  repeat (apply elem_of_cons in Hm as [->|Hm]; [by vm_compute in He|]).
  by apply elem_of_nil in Hm.
Qed.

Section Constructor.

  Variable ion_Z : string → Z.
  Variable Star_ok : string → bool.
  Variable validate_email_ok : string → bool.
  Variable time2human : Z → string.
  Variable py_int : string → option Z.
  Variable DATA_DIR : string.

Let init := Config_init ion_Z Star_ok validate_email_ok time2human py_int
              DATA_DIR.
Let valid := valid_form py_int.
Let check := _check_for_errors Star_ok validate_email_ok.

(** What a successful validation says about the raw fields. *)
Lemma validate_Some (form : FieldStorage) (doc : Doc.t) :
  validate py_int form = Some doc →
  coerce_str (getfirst form "email") = Some (Doc.email doc) ∧
  coerce_str (getfirst form "algorithm") = Some (Doc.algorithm doc) ∧
  coerce_int py_int (getfirst form "sol_size") = Some (Doc.sol_size doc) ∧
  coerce_int py_int (getfirst form "pop_size") = Some (Doc.pop_size doc) ∧
  coerce_int py_int (getfirst form "time_limit")
    = Some (Doc.time_limit doc) ∧
  coerce_str (getfirst form "database") = Some (Doc.database doc) ∧
  coerce_str (getfirst form "plotformat") = Some (Doc.plotformat doc) ∧
  coerce_str (getfirst form "z_exclude") = Some (Doc.z_exclude doc) ∧
  coerce_str (getfirst form "z_lolim") = Some (Doc.z_lolim doc).
Proof.
  unfold validate. intros H. simplify_option_eq. by repeat split.
Qed.

(** The constructor returns on a valid request. *)
Lemma init_valid (wc : WebConfig) (now : Py.datetime) (form : FieldStorage)
    (fs : filesystem) :
  valid form = true →
  ∃ up doc cfg fs',
    stardata form = Some up ∧ validate py_int form = Some doc ∧
    is_algorithm (Doc.algorithm doc) = true ∧
    init wc now form fs = (Return cfg, fs') ∧
    built ion_Z Star_ok validate_email_ok time2human DATA_DIR
      wc now up doc fs cfg fs'.
Proof.
  unfold valid, valid_form, init, Config_init. intros H.
  destruct (stardata form) as [up|]; [|done].
  destruct (validate py_int form) as [doc|]; [|done].
  rewrite H. exists up, doc.
  destruct (up_filename up) as [[|c name]|] eqn:Hname;
    (eexists _, _; do 4 (split; [first [exact H | reflexivity]|]);
     constructor; rewrite ?Hname; cbn [Py.truthy];
     repeat first [reflexivity | split | eexists]).
Qed.

(** The accumulation of [_check_for_errors] gives the failing rules'
    messages, in rule order. *)
Lemma check_admission_errors (self : Config) :
  check self = admission_errors Star_ok validate_email_ok self.
Proof.
  unfold check, _check_for_errors, admission_errors, admission_rules.
  destruct (Star_ok _), (sol_size self >? 10), (pop_size self >? 1000),
    (time_limit self >? 60), (mail self), (validate_email_ok _),
    (String.eqb (plotformat self) "pdf"); reflexivity.
Qed.

Lemma elem_of_admission_errors (self : Config) (m : string) :
  m ∈ admission_errors Star_ok validate_email_ok self
  ↔ (true, m) ∈ admission_rules Star_ok validate_email_ok self.
Proof.
  unfold admission_errors. rewrite list_elem_of_fmap. split.
  - intros [[b m'] [-> [Hb Hin]%list_elem_of_filter]]. simpl in *. by subst.
  - intros Hin. exists (true, m). split; [done|].
    by apply list_elem_of_filter.
Qed.

(** A fixed message is raised by its own rule only. *)
Lemma rule_star (self : Config) :
  (true, msg_star) ∈ admission_rules Star_ok validate_email_ok self
  ↔ Star_ok (filename self) = false.
Proof.
  unfold admission_rules. split.
  - intros H.
    repeat (apply elem_of_cons in H as [H|H]); [..|by apply elem_of_nil in H];
      apply pair_equal_spec in H as [Hb Hm]; try discriminate Hm.
    + by destruct (Star_ok _).
    + symmetry in Hm. apply msg_email_fixed in Hm; [done|set_solver].
  - intros ->. apply list_elem_of_here.
Qed.

Lemma rule_time_limit (self : Config) :
  (true, msg_time_limit) ∈ admission_rules Star_ok validate_email_ok self
  ↔ (time_limit self >? 60) && negb (mail self) = true.
Proof.
  unfold admission_rules. split.
  - intros H.
    repeat (apply elem_of_cons in H as [H|H]); [..|by apply elem_of_nil in H];
      apply pair_equal_spec in H as [Hb Hm]; try discriminate Hm.
    + done.
    + symmetry in Hm. apply msg_email_fixed in Hm; [done|set_solver].
  - intros ->. set_solver.
Qed.

(** ** Algorithm overrides and the expected time *)

(** C1: on every valid request the algorithm decides the budget: [single]
    gives solution size 1 and time limit 0, [double] gives solution size 2
    and time limit 900, and [ga] keeps the submitted [sol_size] and
    [time_limit], whatever those were. *)
Theorem C1_algorithm_overrides_budget (wc : WebConfig) (now : Py.datetime)
    (form : FieldStorage) (fs : filesystem) :
  valid form = true →
  ∃ cfg, (init wc now form fs).1 = Return cfg ∧
    coerce_str (getfirst form "algorithm") = Some (algorithm cfg) ∧
    (algorithm cfg = "single" → sol_size cfg = 1 ∧ time_limit cfg = 0) ∧
    (algorithm cfg = "double" → sol_size cfg = 2 ∧ time_limit cfg = 900) ∧
    (algorithm cfg = "ga" →
       coerce_int py_int (getfirst form "sol_size") = Some (sol_size cfg) ∧
       coerce_int py_int (getfirst form "time_limit")
         = Some (time_limit cfg)).
Proof.
  intros Hv.
  destruct (init_valid wc now form fs Hv)
    as (up & doc & cfg & fs' & _ & Hdoc & _ & Hinit & Hb).
  apply validate_Some in Hdoc as (_ & Ha & Hs & _ & Ht & _).
  exists cfg.
  rewrite Hinit, (b_sol_size _ _ _ _ _ _ _ _ _ _ _ _ Hb),
    (b_time_limit _ _ _ _ _ _ _ _ _ _ _ _ Hb), (b_algorithm _ _ _ _ _ _ _ _ _ _ _ _ Hb).
  split; [done|]. split; [done|].
  unfold override_sol_size, override_time_limit.
  split; [|split]; intros E; rewrite E; by cbn.
Qed.

(** C7: on every valid request the expected time reads [now] when the
    time limit, after the override, is below 1, [in more than 10 minutes]
    when it is above 600, and otherwise [in ] followed by the rendering
    of the duration by [time2human]. *)
Theorem C7_eta_description (wc : WebConfig) (now : Py.datetime)
    (form : FieldStorage) (fs : filesystem) :
  valid form = true →
  ∃ cfg raw, (init wc now form fs).1 = Return cfg ∧
    coerce_int py_int (getfirst form "time_limit") = Some raw ∧
    time_limit cfg = override_time_limit (algorithm cfg) raw ∧
    (time_limit cfg < 1 → time_eta cfg = "now") ∧
    (time_limit cfg > 600 → time_eta cfg = "in more than 10 minutes") ∧
    (1 ≤ time_limit cfg ≤ 600 →
       time_eta cfg = "in " +:+ time2human (time_limit cfg)).
Proof.
  intros Hv.
  destruct (init_valid wc now form fs Hv)
    as (up & doc & cfg & fs' & _ & Hdoc & _ & Hinit & Hb).
  apply validate_Some in Hdoc as (_ & _ & _ & _ & Ht & _).
  exists cfg, (Doc.time_limit doc).
  rewrite Hinit, (b_time_eta _ _ _ _ _ _ _ _ _ _ _ _ Hb),
    (b_algorithm _ _ _ _ _ _ _ _ _ _ _ _ Hb).
  do 2 (split; [done|]). split; [by apply Hb|]. unfold eta_of.
  repeat split; intros H.
  - by rewrite (proj2 (Z.ltb_lt _ _)) by lia.
  - rewrite (proj2 (Z.ltb_ge _ _)) by lia.
    by rewrite (proj2 (Z.gtb_gt _ _)) by lia.
  - rewrite (proj2 (Z.ltb_ge _ _)) by lia.
    destruct (Z.gtb_spec (time_limit cfg) 600); [lia|done].
Qed.

(** ** Fatal failures *)

(** C8: a request whose algorithm is none of [ga], [single], [double]
    never yields a configuration: the constructor raises.  Once the upload
    entry and the schema are in order the exception is the [RuntimeError]
    on the algorithm, so the failure is no entry of an errors list; and on
    such an algorithm neither override changes a value, the solution size
    being overridden only past that check. *)
Theorem C8_bad_algorithm_is_fatal (wc : WebConfig) (now : Py.datetime)
    (form : FieldStorage) (fs : filesystem) (a : string) :
  coerce_str (getfirst form "algorithm") = Some a →
  is_algorithm a = false →
  (∀ cfg, (init wc now form fs).1 ≠ Return cfg) ∧
  (∃ e, (init wc now form fs).1 = Raise e) ∧
  (is_Some (stardata form) → is_Some (validate py_int form) →
     (init wc now form fs).1 = Raise (RuntimeError msg_bad_algorithm)) ∧
  (∀ s, override_sol_size a s = s) ∧
  (∀ t, override_time_limit a t = t).
Proof.
  intros Ha Hbad.
  assert (Hov : (a =? "double")%string = false
                ∧ (a =? "single")%string = false).
  { unfold is_algorithm in Hbad.
    by destruct (a =? "ga")%string, (a =? "double")%string,
      (a =? "single")%string. }
  destruct Hov as [Hd Hs].
  assert (Hrun : (init wc now form fs).1 = Raise SystemExit
            ∨ (init wc now form fs).1 = Raise (RuntimeError "Bad form input")
            ∨ (is_Some (stardata form) ∧ is_Some (validate py_int form)
               ∧ (init wc now form fs).1
                 = Raise (RuntimeError msg_bad_algorithm))).
  { unfold init, Config_init.
    destruct (stardata form) as [up|]; [|by left].
    destruct (validate py_int form) as [doc|] eqn:Hdoc; [|by right; left].
    apply validate_Some in Hdoc as (_ & Ha' & _).
    rewrite Ha in Ha'. injection Ha' as <-. rewrite Hbad.
    right; right. destruct (up_filename up) as [[|c name]|]; by eauto. }
  repeat split.
  - intros cfg Hcfg. destruct Hrun as [H|[H|(_ & _ & H)]]; congruence.
  - destruct Hrun as [H|[H|(_ & _ & H)]]; eauto.
  - intros [up Hup] [doc Hdoc].
    destruct Hrun as [H|[H|(_ & _ & H)]]; [| |done].
    + unfold init, Config_init in H. rewrite Hup, Hdoc in H.
      by destruct (negb _), (up_filename up) as [[|c name]|].
    + unfold init, Config_init in H. rewrite Hup, Hdoc in H.
      by destruct (negb _), (up_filename up) as [[|c name]|].
  - intros s. unfold override_sol_size. by rewrite Hd, Hs.
  - intros t. unfold override_time_limit. by rewrite Hd, Hs.
Qed.

(** C10: a request without the [stardata] entry ends in [SystemExit],
    the file system untouched, whatever the other fields hold: the schema
    is not consulted, no [RuntimeError] of the validation is raised and no
    configuration (so no errors list) comes back. *)
Theorem C10_missing_stardata_exits (wc : WebConfig) (now : Py.datetime)
    (form : FieldStorage) (fs : filesystem) :
  stardata form = None →
  init wc now form fs = (Raise SystemExit, fs) ∧
  (∀ msg, (init wc now form fs).1 ≠ Raise (RuntimeError msg)) ∧
  (∀ cfg, (init wc now form fs).1 ≠ Return cfg).
Proof.
  intros H. unfold init, Config_init. rewrite H. by repeat split.
Qed.

(** ** Admission checks *)

(** C4: on every valid request the constructor returns a configuration,
    and its errors list is exactly the messages of those of the six
    admission rules whose own condition fails, in the order of the rules:
    no rule is skipped because an earlier one failed, none raises, and a
    non-empty list does not stop the construction. *)
Theorem C4_admission_checks_accumulate (wc : WebConfig) (now : Py.datetime)
    (form : FieldStorage) (fs : filesystem) :
  valid form = true →
  ∃ cfg fs', init wc now form fs = (Return cfg, fs') ∧
    let rules := admission_rules Star_ok validate_email_ok cfg in
    length rules = 6%nat ∧
    errors cfg = (filter (λ r, r.1 = true) rules).*2 ∧
    length (errors cfg) = length (filter (λ r, r.1 = true) rules) ∧
    (∀ m, m ∈ errors cfg ↔ (true, m) ∈ rules).
Proof.
  intros Hv.
  destruct (init_valid wc now form fs Hv)
    as (up & doc & cfg & fs' & _ & _ & _ & Hinit & Hb).
  exists cfg, fs'. split; [done|].
  assert (He : errors cfg = admission_errors Star_ok validate_email_ok cfg).
  { rewrite (b_errors _ _ _ _ _ _ _ _ _ _ _ _ Hb). apply check_admission_errors. }
  cbv zeta. split; [done|]. split; [done|]. split.
  - rewrite He. unfold admission_errors. by rewrite length_fmap.
  - intros m. rewrite He. apply elem_of_admission_errors.
Qed.

(** C5: on every valid request the errors list holds the message that
    results must be emailed exactly when the time limit, after the
    override, exceeds 60 and the email field is empty ([mail] being
    [email != ""]); with the [single] algorithm it never does. *)
Theorem C5_time_limit_needs_email (wc : WebConfig) (now : Py.datetime)
    (form : FieldStorage) (fs : filesystem) :
  valid form = true →
  ∃ cfg, (init wc now form fs).1 = Return cfg ∧
    mail cfg = negb (String.eqb (email cfg) "") ∧
    (msg_time_limit ∈ errors cfg ↔ time_limit cfg > 60 ∧ email cfg = "") ∧
    (algorithm cfg = "single" → msg_time_limit ∉ errors cfg).
Proof.
  intros Hv.
  destruct (init_valid wc now form fs Hv)
    as (up & doc & cfg & fs' & _ & _ & _ & Hinit & Hb).
  exists cfg. rewrite Hinit. split; [done|].
  assert (Hm : mail cfg = negb (String.eqb (email cfg) "")).
  { by rewrite (b_mail _ _ _ _ _ _ _ _ _ _ _ _ Hb), (b_email _ _ _ _ _ _ _ _ _ _ _ _ Hb). }
  assert (Hiff : msg_time_limit ∈ errors cfg
                 ↔ time_limit cfg > 60 ∧ email cfg = "").
  { rewrite (b_errors _ _ _ _ _ _ _ _ _ _ _ _ Hb), check_admission_errors,
      elem_of_admission_errors, rule_time_limit, Hm.
    rewrite andb_true_iff, negb_true_iff, negb_false_iff.
    by rewrite Z.gtb_gt, String.eqb_eq. }
  split; [done|]. split; [done|].
  intros Hs [Ht _]%Hiff.
  rewrite (b_time_limit _ _ _ _ _ _ _ _ _ _ _ _ Hb) in Ht.
  rewrite (b_algorithm _ _ _ _ _ _ _ _ _ _ _ _ Hb) in Hs.
  rewrite Hs in Ht. cbn in Ht. lia.
Qed.

(** ** The database path *)

(** C2 (as the code has it): on every valid request the database path is
    [os.path.join(db_dir, database)].  For a [database] that does not
    start with a slash this is [db_dir] followed by [database], with one
    slash in between unless [db_dir] is empty or ends in one; for a
    [database] that starts with a slash it is [database] alone, and
    [db_dir] is dropped. *)
Theorem C2_dbpath_is_os_path_join (wc : WebConfig) (now : Py.datetime)
    (form : FieldStorage) (fs : filesystem) :
  valid form = true →
  ∃ cfg, (init wc now form fs).1 = Return cfg ∧
    coerce_str (getfirst form "database") = Some (database cfg) ∧
    dbpath cfg = Py.os_path_join (db_dir wc) [database cfg] ∧
    (Py.startswith_sep (database cfg) = false →
       dbpath cfg
       = if (String.eqb (db_dir wc) "" || Py.endswith_sep (db_dir wc))%bool
         then db_dir wc +:+ database cfg
         else db_dir wc +:+ "/" +:+ database cfg) ∧
    (Py.startswith_sep (database cfg) = true → dbpath cfg = database cfg).
Proof.
  intros Hv.
  destruct (init_valid wc now form fs Hv)
    as (up & doc & cfg & fs' & _ & Hdoc & _ & Hinit & Hb).
  apply validate_Some in Hdoc as (_ & _ & _ & _ & _ & Hd & _).
  exists cfg.
  rewrite Hinit, (b_dbpath _ _ _ _ _ _ _ _ _ _ _ _ Hb), (b_database _ _ _ _ _ _ _ _ _ _ _ _ Hb).
  repeat split; [done| |].
  - apply join_step_relative.
  - apply join_step_absolute.
Qed.

End Constructor.

(** ** Element lists *)

(** Dropping the zeros of a list keeps every other entry as often as it
    occurred. *)
Lemma count_occ_drop_zeros (l : list Z) (z : Z) :
  z ≠ 0 →
  count_occ Z.eq_dec (filter (λ x, x ≠ 0) l) z = count_occ Z.eq_dec l z.
Proof.
  intros Hz. induction l as [|x l IH]; [done|].
  rewrite filter_cons. destruct (decide (x ≠ 0)) as [Hx|Hx]; simpl.
  - by rewrite IH.
  - destruct (Z.eq_dec x z); [lia|done].
Qed.

(** What is dropped is the zeros, one entry for each. *)
Lemma length_drop_zeros (l : list Z) :
  (length (filter (λ x : Z, x ≠ 0%Z) l) + count_occ Z.eq_dec l 0%Z
   = length l)%nat.
Proof.
  induction l as [|x l IH]; [done|].
  rewrite filter_cons. destruct (decide (x ≠ 0)) as [Hx|Hx]; simpl.
  - destruct (Z.eq_dec x 0); [done|lia].
  - destruct (Z.eq_dec x 0); [lia|]. destruct Hx. done.
Qed.

(** C6: whatever the raw text, the parsed list is the atomic numbers of
    its comma-separated tokens, in order, minus exactly the zeros and with
    duplicates kept; so on every valid request neither [z_exclude] nor
    [z_lolim] of the configuration contains 0. *)
Theorem C6_element_lists_drop_zeros (ion_Z : string → Z)
    (Star_ok validate_email_ok : string → bool) (time2human : Z → string)
    (py_int : string → option Z) (DATA_DIR : string) :
  (∀ s, elements_of ion_Z s (parse_elements ion_Z s)) ∧
  (∀ wc now form fs, valid_form py_int form = true →
     ∃ cfg raw_exclude raw_lolim,
       (Config_init ion_Z Star_ok validate_email_ok time2human py_int
          DATA_DIR wc now form fs).1 = Return cfg ∧
       coerce_str (getfirst form "z_exclude") = Some raw_exclude ∧
       coerce_str (getfirst form "z_lolim") = Some raw_lolim ∧
       z_exclude cfg = parse_elements ion_Z raw_exclude ∧
       z_lolim cfg = parse_elements ion_Z raw_lolim ∧
       (0 ∉ z_exclude cfg) ∧ (0 ∉ z_lolim cfg)).
Proof.
  assert (Hparse : ∀ s, elements_of ion_Z s (parse_elements ion_Z s)).
  { intros s. unfold elements_of, parse_elements. cbv zeta.
    split; [apply join_split_comma|]. split; [apply split_comma_tokens|].
    split; [apply sublist_filter|].
    split; [by intros [? _]%list_elem_of_filter|].
    split; [intros z Hz; by apply count_occ_drop_zeros|].
    apply length_drop_zeros. }
  split; [done|]. intros wc now form fs Hv.
  destruct (init_valid ion_Z Star_ok validate_email_ok time2human py_int
              DATA_DIR wc now form fs Hv)
    as (up & doc & cfg & fs' & _ & Hdoc & _ & Hinit & Hb).
  apply validate_Some in Hdoc as (_ & _ & _ & _ & _ & _ & _ & Hze & Hzl).
  exists cfg, (Doc.z_exclude doc), (Doc.z_lolim doc).
  rewrite Hinit. destruct Hb. do 5 (split; [done|]).
  rewrite b_z_exclude0, b_z_lolim0.
  split; apply Hparse.
Qed.

(** ** The stellar data check *)

(** The checks read seven attributes, and the loader at the file name. *)
Lemma check_ext (Star_ok Star_ok' validate_email_ok : string → bool)
    (c c' : Config) :
  filename c' = filename c → sol_size c' = sol_size c →
  pop_size c' = pop_size c → time_limit c' = time_limit c →
  mail c' = mail c → email c' = email c → plotformat c' = plotformat c →
  Star_ok' (filename c) = Star_ok (filename c) →
  _check_for_errors Star_ok' validate_email_ok c'
  = _check_for_errors Star_ok validate_email_ok c.
Proof.
  intros Hf Hs Hp Ht Hm He Hpl HS. unfold _check_for_errors.
  by rewrite Hf, Hs, Hp, Ht, Hm, He, Hpl, HS.
Qed.

Section Built.

  Variable ion_Z : string → Z.
  Variable Star_ok : string → bool.
  Variable validate_email_ok : string → bool.
  Variable time2human : Z → string.
  Variable DATA_DIR : string.
  Variables (wc : WebConfig) (now : Py.datetime) (up : Upload) (doc : Doc.t).
  Variables (fs fs' : filesystem) (cfg : Config).
  Hypothesis Hb : built ion_Z Star_ok validate_email_ok time2human DATA_DIR
                    wc now up doc fs cfg fs'.

(** The file name is the upload's when it has one, the default's
    otherwise. *)
Lemma built_filename :
  filename cfg
  = if Py.truthy (up_filename up) then default "" (up_filename up)
    else default_filename.
Proof.
  destruct Hb. destruct (Py.truthy (up_filename up)).
  - destruct b_file0 as (name & -> & -> & _). done.
  - by destruct b_file0 as (-> & _).
Qed.

(** The path is always longer than the name. *)
Lemma built_filepath_longer :
  (String.length (filename cfg) < String.length (filepath cfg))%nat.
Proof.
  destruct Hb. destruct (Py.truthy (up_filename up)).
  - destruct b_file0 as (name & _ & Hf & Hp & _). rewrite Hp, Hf.
    pose proof (join_step_length "/tmp" (name +:+ start_time cfg)) as Hlen.
    rewrite length_append, b_start_time0 in Hlen.
    pose proof (start_time_length now). rewrite b_start_time0.
    unfold Py.os_path_join, fold_left. lia.
  - destruct b_file0 as (-> & -> & _).
    apply join_step_length_relative; [done|].
    pose proof (join_step_length DATA_DIR "stars") as Hlen.
    intros E. rewrite E in Hlen. simpl in Hlen. lia.
Qed.

(** An upload with a file name is on disk under the path. *)
Lemma built_upload_written :
  Py.truthy (up_filename up) = true →
  up_filename up = Some (filename cfg) ∧
  filepath cfg = Py.os_path_join "/tmp" [filename cfg +:+ start_time cfg] ∧
  fs' !! filepath cfg = Some (up_content up).
Proof.
  intros Ht. destruct Hb. rewrite Ht in b_file0.
  destruct b_file0 as (name & Hn & Hf & Hp & ->). subst name.
  by rewrite lookup_insert_eq.
Qed.

End Built.

(** C9: the stellar data check hands the loader the bare file name.  On
    every valid request the stellar data message is in the errors list
    exactly when the loader fails on [filename]; [filename] is never the
    string [filepath]; for an upload with a file name the bytes are on
    disk under [filepath], which the loader is not given: any loader that
    agrees with this one on [filename] alone yields the same errors, and
    so does the same request with any other bytes in the upload. *)
Theorem C9_star_check_uses_bare_filename (ion_Z : string → Z)
    (Star_ok validate_email_ok : string → bool) (time2human : Z → string)
    (py_int : string → option Z) (DATA_DIR : string)
    (wc : WebConfig) (now : Py.datetime) (form : FieldStorage)
    (fs : filesystem) :
  valid_form py_int form = true →
  ∃ cfg fs',
    Config_init ion_Z Star_ok validate_email_ok time2human py_int DATA_DIR
      wc now form fs = (Return cfg, fs') ∧
    (msg_star ∈ errors cfg ↔ Star_ok (filename cfg) = false) ∧
    filename cfg ≠ filepath cfg ∧
    (∀ up, stardata form = Some up → Py.truthy (up_filename up) = true →
       up_filename up = Some (filename cfg) ∧
       fs' !! filepath cfg = Some (up_content up)) ∧
    (∀ Star_ok', Star_ok' (filename cfg) = Star_ok (filename cfg) →
       ∃ cfg',
         (Config_init ion_Z Star_ok' validate_email_ok time2human py_int
            DATA_DIR wc now form fs).1 = Return cfg' ∧
         errors cfg' = errors cfg) ∧
    (∀ content,
       ∃ cfg',
         (Config_init ion_Z Star_ok validate_email_ok time2human py_int
            DATA_DIR wc now (with_upload_content form content) fs).1
         = Return cfg' ∧
         errors cfg' = errors cfg).
Proof.
  intros Hv.
  destruct (init_valid ion_Z Star_ok validate_email_ok time2human py_int
              DATA_DIR wc now form fs Hv)
    as (up & doc & cfg & fs' & Hup & Hdoc & Halg & Hinit & Hb).
  exists cfg, fs'. split; [done|].
  pose proof (built_filename _ _ _ _ _ _ _ _ _ _ _ _ Hb) as Hname.
  split; [|split; [|split; [|split]]].
  - rewrite (b_errors _ _ _ _ _ _ _ _ _ _ _ _ Hb), check_admission_errors,
      elem_of_admission_errors. apply rule_star.
  - intros E.
    pose proof (built_filepath_longer _ _ _ _ _ _ _ _ _ _ _ _ Hb) as Hlen.
    rewrite <- E in Hlen. lia.
  - intros up' Hup' Ht. rewrite Hup in Hup'. injection Hup' as <-.
    destruct (built_upload_written _ _ _ _ _ _ _ _ _ _ _ _ Hb Ht)
      as (? & _ & ?).
    done.
  - intros Star_ok' HS.
    destruct (init_valid ion_Z Star_ok' validate_email_ok time2human py_int
                DATA_DIR wc now form fs Hv)
      as (up' & doc' & cfg' & fs'' & Hup' & Hdoc' & _ & Hinit' & Hb').
    rewrite Hup in Hup'. injection Hup' as <-.
    rewrite Hdoc in Hdoc'. injection Hdoc' as <-.
    exists cfg'. rewrite Hinit'. split; [done|].
    pose proof (built_filename _ _ _ _ _ _ _ _ _ _ _ _ Hb') as Hname'.
    rewrite (b_errors _ _ _ _ _ _ _ _ _ _ _ _ Hb),
      (b_errors _ _ _ _ _ _ _ _ _ _ _ _ Hb').
    destruct Hb, Hb'. apply check_ext; congruence.
  - intros content.
    assert (Hv' : valid_form py_int (with_upload_content form content)
                  = true).
    { unfold valid_form, with_upload_content in *. simpl.
      rewrite Hup in Hv |- *. exact Hv. }
    destruct (init_valid ion_Z Star_ok validate_email_ok time2human py_int
                DATA_DIR wc now _ fs Hv')
      as (up' & doc' & cfg' & fs'' & Hup' & Hdoc' & _ & Hinit' & Hb').
    simpl in Hup'. rewrite Hup in Hup'. injection Hup' as <-.
    change (validate py_int form = Some doc') in Hdoc'.
    rewrite Hdoc in Hdoc'. injection Hdoc' as <-.
    exists cfg'. rewrite Hinit'. split; [done|].
    pose proof (built_filename _ _ _ _ _ _ _ _ _ _ _ _ Hb') as Hname'.
    simpl in Hname'.
    rewrite (b_errors _ _ _ _ _ _ _ _ _ _ _ _ Hb),
      (b_errors _ _ _ _ _ _ _ _ _ _ _ _ Hb').
    destruct Hb, Hb'. apply check_ext; congruence.
Qed.

(** ** The temporary file of an upload *)

(** C3 (what the code does): the start time is formatted with [%M], the
    minute, where the month belongs, so it reads
    year-minute-day-hour-minute-second.  An upload named [star.dat]
    received on 15 March 2024 at 10:27:45 is written to
    [/tmp/star.dat2024-27-15-10-27-45], and nothing is written under the
    name with the month, [/tmp/star.dat2024-03-15-10-27-45]. *)
Theorem C3_start_time_has_minute_for_month :
  (∀ t, Py.strftime "%Y-%M-%d-%H-%M-%S" t
        = Py.dec (Py.year t) +:+ "-" +:+ Py.pad2 (Py.minute t) +:+ "-"
          +:+ Py.pad2 (Py.day t) +:+ "-" +:+ Py.pad2 (Py.hour t) +:+ "-"
          +:+ Py.pad2 (Py.minute t) +:+ "-" +:+ Py.pad2 (Py.second t)) ∧
  Py.strftime "%Y-%m-%d-%H-%M-%S" Demo.now = "2024-03-15-10-27-45" ∧
  ∃ cfg fs',
    Demo.init Demo.ga_form = (Return cfg, fs') ∧
    filename cfg = "star.dat" ∧
    start_time cfg = "2024-27-15-10-27-45" ∧
    filepath cfg = "/tmp/star.dat2024-27-15-10-27-45" ∧
    fs' !! "/tmp/star.dat2024-27-15-10-27-45"
      = Some (up_content Demo.star_upload) ∧
    fs' !! "/tmp/star.dat2024-03-15-10-27-45" = None.
Proof.
  split; [|split; [reflexivity|]].
  - intros t. rewrite <- (append_nil_r (Py.pad2 (Py.second t))).
    reflexivity.
  - eexists _, _. split; [reflexivity|].
    repeat split; reflexivity.
Qed.

(** C2, counterexample: a [database] field holding an absolute path
    becomes the database path as it is, outside [db_dir]. *)
Lemma C2_absolute_database_escapes :
  ∃ cfg,
    (Demo.init Demo.absolute_database_form).1 = Return cfg ∧
    getfirst Demo.absolute_database_form "database" = Some "/etc/passwd" ∧
    db_dir Demo.web_config = "/srv/starfit/db" ∧
    dbpath cfg = "/etc/passwd" ∧
    dbpath cfg ≠ db_dir Demo.web_config +:+ "/" +:+ "/etc/passwd" ∧
    String.prefix (db_dir Demo.web_config) (dbpath cfg) = false.
Proof.
  eexists. split; [reflexivity|]. by repeat split.
Qed.

(** ** The theorems at the sample requests *)

(** C1 at a [single] request asking for solution size 7 and 500 s. *)
Lemma C1_witness :
  valid_form Demo.py_int Demo.single_form = true ∧
  getfirst Demo.single_form "sol_size" = Some "7" ∧
  getfirst Demo.single_form "time_limit" = Some "500" ∧
  ∃ cfg, (Demo.init Demo.single_form).1 = Return cfg ∧
    sol_size cfg = 1 ∧ time_limit cfg = 0.
Proof.
  do 3 (split; [reflexivity|]).
  destruct (C1_algorithm_overrides_budget Demo.ion_Z Demo.Star_ok
              Demo.validate_email_ok Demo.time2human Demo.py_int
              Demo.DATA_DIR Demo.web_config Demo.now Demo.single_form ∅
              eq_refl)
    as (cfg & Hinit & Halg & Hsingle & _).
  exists cfg. split; [exact Hinit|]. apply Hsingle.
  vm_compute in Halg. by injection Halg.
Defined.

(** C2 (as the code has it) at a relative and at an absolute [database]:
    the first lands under [db_dir], the second replaces it. *)
Lemma C2_witness :
  valid_form Demo.py_int Demo.single_form = true ∧
  valid_form Demo.py_int Demo.absolute_database_form = true ∧
  (∃ cfg, (Demo.init Demo.single_form).1 = Return cfg ∧
     dbpath cfg = "/srv/starfit/db/znuc.h5") ∧
  (∃ cfg, (Demo.init Demo.absolute_database_form).1 = Return cfg ∧
     dbpath cfg = "/etc/passwd").
Proof.
  do 2 (split; [reflexivity|]). split.
  - destruct (C2_dbpath_is_os_path_join Demo.ion_Z Demo.Star_ok
                Demo.validate_email_ok Demo.time2human Demo.py_int
                Demo.DATA_DIR Demo.web_config Demo.now Demo.single_form ∅
                eq_refl)
      as (cfg & Hinit & Hdb & _ & Hrel & _).
    exists cfg. split; [exact Hinit|].
    assert (Hd : Some (database cfg) = Some "znuc.h5")
      by (rewrite <- Hdb; reflexivity).
    injection Hd as Hd.
    rewrite Hrel by (rewrite Hd; reflexivity). rewrite Hd. reflexivity.
  - destruct (C2_dbpath_is_os_path_join Demo.ion_Z Demo.Star_ok
                Demo.validate_email_ok Demo.time2human Demo.py_int
                Demo.DATA_DIR Demo.web_config Demo.now
                Demo.absolute_database_form ∅ eq_refl)
      as (cfg & Hinit & Hdb & _ & _ & Habs).
    exists cfg. split; [exact Hinit|].
    assert (Hd : Some (database cfg) = Some "/etc/passwd")
      by (rewrite <- Hdb; reflexivity).
    injection Hd as Hd.
    rewrite Habs by (rewrite Hd; reflexivity). exact Hd.
Defined.

(** C4 at a request failing three rules: the configuration is built and
    carries the three messages in rule order. *)
Lemma C4_witness :
  valid_form Demo.py_int Demo.ga_form = true ∧
  ∃ cfg fs', Demo.init Demo.ga_form = (Return cfg, fs') ∧
    errors cfg = [msg_star; msg_time_limit; msg_pdf].
Proof.
  split; [reflexivity|].
  destruct (C4_admission_checks_accumulate Demo.ion_Z Demo.Star_ok
              Demo.validate_email_ok Demo.time2human Demo.py_int
              Demo.DATA_DIR Demo.web_config Demo.now Demo.ga_form ∅ eq_refl)
    as (cfg & fs' & Hinit & _ & Herr & _).
  exists cfg, fs'. split; [exact Hinit|].
  rewrite Herr. vm_compute in Hinit. injection Hinit as <- _. reflexivity.
Defined.

(** C5 at [ga] with 120 s and no address, and at [single] with 500 s. *)
Lemma C5_witness :
  valid_form Demo.py_int Demo.ga_form = true ∧
  valid_form Demo.py_int Demo.single_form = true ∧
  (∃ cfg, (Demo.init Demo.ga_form).1 = Return cfg ∧
     msg_time_limit ∈ errors cfg) ∧
  (∃ cfg, (Demo.init Demo.single_form).1 = Return cfg ∧
     msg_time_limit ∉ errors cfg).
Proof.
  do 2 (split; [reflexivity|]). split.
  - destruct (C5_time_limit_needs_email Demo.ion_Z Demo.Star_ok
                Demo.validate_email_ok Demo.time2human Demo.py_int
                Demo.DATA_DIR Demo.web_config Demo.now Demo.ga_form ∅
                eq_refl)
      as (cfg & Hinit & _ & Hiff & _).
    exists cfg. split; [exact Hinit|]. apply Hiff.
    vm_compute in Hinit. injection Hinit as <-. by split.
  - destruct (C5_time_limit_needs_email Demo.ion_Z Demo.Star_ok
                Demo.validate_email_ok Demo.time2human Demo.py_int
                Demo.DATA_DIR Demo.web_config Demo.now Demo.single_form ∅
                eq_refl)
      as (cfg & Hinit & _ & _ & Hsingle).
    exists cfg. split; [exact Hinit|]. apply Hsingle.
    vm_compute in Hinit. by injection Hinit as <-.
Defined.

(** C6 at the text [C,Xx,O,C]: the unknown [Xx] is dropped, both [C]
    stay, and the configuration's lists hold no 0. *)
Lemma C6_witness :
  valid_form Demo.py_int Demo.ga_form = true ∧
  getfirst Demo.ga_form "z_exclude" = Some "C,Xx,O,C" ∧
  parse_elements Demo.ion_Z "C,Xx,O,C" = [6; 8; 6] ∧
  elements_of Demo.ion_Z "C,Xx,O,C" [6; 8; 6] ∧
  ∃ cfg, (Demo.init Demo.ga_form).1 = Return cfg ∧
    (0 ∉ z_exclude cfg) ∧ (0 ∉ z_lolim cfg).
Proof.
  do 3 (split; [reflexivity|]).
  destruct (C6_element_lists_drop_zeros Demo.ion_Z Demo.Star_ok
              Demo.validate_email_ok Demo.time2human Demo.py_int
              Demo.DATA_DIR) as [Hparse Hcfg].
  split; [exact (Hparse "C,Xx,O,C")|].
  destruct (Hcfg Demo.web_config Demo.now Demo.ga_form ∅ eq_refl)
    as (cfg & ? & ? & Hinit & _ & _ & _ & _ & H0 & H0').
  by exists cfg.
Defined.

(** C7 at a [ga] request of 120 s. *)
Lemma C7_witness :
  valid_form Demo.py_int Demo.ga_form = true ∧
  ∃ cfg, (Demo.init Demo.ga_form).1 = Return cfg ∧
    time_limit cfg = 120 ∧
    time_eta cfg = "in " +:+ Demo.time2human 120.
Proof.
  split; [reflexivity|].
  destruct (C7_eta_description Demo.ion_Z Demo.Star_ok
              Demo.validate_email_ok Demo.time2human Demo.py_int
              Demo.DATA_DIR Demo.web_config Demo.now Demo.ga_form ∅ eq_refl)
    as (cfg & raw & Hinit & _ & _ & _ & _ & Hmid).
  exists cfg. split; [exact Hinit|].
  assert (Ht : time_limit cfg = 120).
  { vm_compute in Hinit. by injection Hinit as <-. }
  split; [exact Ht|]. rewrite <- Ht. apply Hmid. lia.
Defined.

(** C8 at the algorithm [simplex]. *)
Lemma C8_witness :
  coerce_str (getfirst Demo.bad_algorithm_form "algorithm") = Some "simplex" ∧
  is_algorithm "simplex" = false ∧
  (Demo.init Demo.bad_algorithm_form).1
  = Raise (RuntimeError msg_bad_algorithm).
Proof.
  do 2 (split; [reflexivity|]).
  destruct (C8_bad_algorithm_is_fatal Demo.ion_Z Demo.Star_ok
              Demo.validate_email_ok Demo.time2human Demo.py_int
              Demo.DATA_DIR Demo.web_config Demo.now Demo.bad_algorithm_form ∅
              "simplex" eq_refl eq_refl)
    as (_ & _ & Hraise & _).
  apply Hraise; vm_compute; eauto.
Defined.

(** C9 at an upload named [star.dat], on which the sample loader fails:
    the message is there, the bytes are on disk under a path that is not
    the name, and other bytes change nothing. *)
Lemma C9_witness :
  valid_form Demo.py_int Demo.ga_form = true ∧
  ∃ cfg fs', Demo.init Demo.ga_form = (Return cfg, fs') ∧
    msg_star ∈ errors cfg ∧
    filename cfg ≠ filepath cfg ∧
    fs' !! filepath cfg = Some (up_content Demo.star_upload) ∧
    ∃ cfg', (Demo.init (with_upload_content Demo.ga_form [])).1 = Return cfg' ∧
      errors cfg' = errors cfg.
Proof.
  split; [reflexivity|].
  destruct (C9_star_check_uses_bare_filename Demo.ion_Z Demo.Star_ok
              Demo.validate_email_ok Demo.time2human Demo.py_int
              Demo.DATA_DIR Demo.web_config Demo.now Demo.ga_form ∅ eq_refl)
    as (cfg & fs' & Hinit & Hiff & Hne & Hup & _ & Hbytes).
  exists cfg, fs'. split; [exact Hinit|].
  split; [|split; [exact Hne|split]].
  - apply Hiff. vm_compute in Hinit. by injection Hinit as <- _.
  - by apply (Hup Demo.star_upload).
  - apply Hbytes.
Defined.

(** C10 at a request with no field at all: the schema would not
    validate, yet the outcome is the exit. *)
Lemma C10_witness :
  stardata Demo.empty_form = None ∧
  validate Demo.py_int Demo.empty_form = None ∧
  Demo.init Demo.empty_form = (Raise SystemExit, ∅).
Proof.
  do 2 (split; [reflexivity|]).
  apply (C10_missing_stardata_exits Demo.ion_Z Demo.Star_ok
           Demo.validate_email_ok Demo.time2human Demo.py_int Demo.DATA_DIR
           Demo.web_config Demo.now Demo.empty_form ∅ eq_refl).
Defined.

(** ** Further properties of the constructor *)

Section ConstructorMore.

  Variable ion_Z : string → Z.
  Variable Star_ok : string → bool.
  Variable validate_email_ok : string → bool.
  Variable time2human : Z → string.
  Variable py_int : string → option Z.
  Variable DATA_DIR : string.

Let init' := Config_init ion_Z Star_ok validate_email_ok time2human py_int
               DATA_DIR.

(** The schema fails exactly on an integer field that does not coerce. *)
Lemma validate_None_iff (form : FieldStorage) :
  validate py_int form = None
  ↔ ∃ key, key ∈ integer_keys ∧ coerce_int py_int (getfirst form key) = None.
Proof.
  unfold validate, integer_keys. split.
  - intros H.
    destruct (coerce_int py_int (getfirst form "sol_size")) eqn:E1;
      [|exists "sol_size"; split; [set_solver|done]].
    destruct (coerce_int py_int (getfirst form "z_min")) eqn:E2;
      [|exists "z_min"; split; [set_solver|done]].
    destruct (coerce_int py_int (getfirst form "z_max")) eqn:E3;
      [|exists "z_max"; split; [set_solver|done]].
    destruct (coerce_int py_int (getfirst form "combine_mode")) eqn:E4;
      [|exists "combine_mode"; split; [set_solver|done]].
    destruct (coerce_int py_int (getfirst form "pop_size")) eqn:E5;
      [|exists "pop_size"; split; [set_solver|done]].
    destruct (coerce_int py_int (getfirst form "time_limit")) eqn:E6;
      [|exists "time_limit"; split; [set_solver|done]].
    destruct (coerce_int py_int (getfirst form "fixed")) eqn:E7;
      [|exists "fixed"; split; [set_solver|done]].
    simplify_option_eq.
  - intros (key & Hkey & Hnone).
    repeat (apply elem_of_cons in Hkey as [->|Hkey];
            [rewrite Hnone; simpl;
             repeat (match goal with
                     | |- context [coerce_int py_int (getfirst form ?k)] =>
                         destruct (coerce_int py_int (getfirst form k))
                     end; simpl); done|]).
    by apply elem_of_nil in Hkey.
Qed.

(** The start time and the path an upload named [name] is written to. *)
Lemma upload_written (wc : WebConfig) (now : Py.datetime)
    (form : FieldStorage) (fs : filesystem) (up : Upload) (doc : Doc.t)
    (c : ascii) (name : string) :
  stardata form = Some up → validate py_int form = Some doc →
  up_filename up = Some (String c name) →
  (init' wc now form fs).2
  = <[Py.os_path_join "/tmp"
        [String c name +:+ Py.strftime "%Y-%M-%d-%H-%M-%S" now]
      := up_content up]> fs.
Proof.
  intros Hup Hdoc Hname. unfold init', Config_init.
  rewrite Hup, Hdoc, Hname. by destruct (negb _).
Qed.

(** X1: with the upload entry present, the constructor raises
    [RuntimeError("Bad form input")] exactly when one of the seven integer
    fields is absent or is no integer; a text or boolean field never
    causes it.  Nothing has been written by then, whatever the upload. *)
Theorem X1_bad_integer_field_is_fatal (wc : WebConfig) (now : Py.datetime)
    (form : FieldStorage) (fs : filesystem) :
  is_Some (stardata form) →
  ((init' wc now form fs).1 = Raise (RuntimeError "Bad form input")
   ↔ ∃ key, key ∈ integer_keys
            ∧ coerce_int py_int (getfirst form key) = None) ∧
  ((init' wc now form fs).1 = Raise (RuntimeError "Bad form input") →
   (init' wc now form fs).2 = fs).
Proof.
  intros [up Hup]. rewrite <- validate_None_iff.
  unfold init', Config_init. rewrite Hup.
  destruct (validate py_int form) as [doc|]; [|done].
  assert (Hno : ∀ r : outcome Config * filesystem,
            r.1 = Raise (RuntimeError "Bad form input") →
            (∃ c f, r = (Return c, f))
            ∨ (∃ f, r = (Raise (RuntimeError msg_bad_algorithm), f)) →
            False).
  { intros r Hr [(c & f & ->)|(f & ->)]; simpl in Hr; discriminate Hr. }
  split; [split; [|done]|]; intros H; exfalso; apply (Hno _ H);
    destruct (negb _), (up_filename up) as [[|ch name]|]; eauto.
Qed.

(** X2: the constructor reads the form through the fourteen schema keys
    and the upload entry only: two forms that agree on those give the
    same outcome and the same file system, whatever else they hold. *)
Theorem X2_only_schema_keys_are_read (wc : WebConfig) (now : Py.datetime)
    (form form' : FieldStorage) (fs : filesystem) :
  (∀ key, key ∈ schema_keys → getfirst form key = getfirst form' key) →
  stardata form = stardata form' →
  init' wc now form fs = init' wc now form' fs.
Proof.
  intros Hkeys Hup.
  assert (Hv : validate py_int form = validate py_int form').
  { unfold validate.
    repeat match goal with
           | |- context [getfirst form ?key] =>
               rewrite (Hkeys key) by (unfold schema_keys; set_solver)
           end.
    done. }
  unfold init', Config_init. by rewrite Hup, Hv.
Qed.

(** X3: a request refused for its algorithm has already stored its
    upload: the [RuntimeError] on the algorithm leaves the uploaded bytes
    in the temporary file. *)
Theorem X3_bad_algorithm_leaves_upload (wc : WebConfig) (now : Py.datetime)
    (form : FieldStorage) (fs : filesystem) (up : Upload) (doc : Doc.t)
    (name : string) :
  stardata form = Some up → up_filename up = Some name → name ≠ "" →
  validate py_int form = Some doc →
  is_algorithm (Doc.algorithm doc) = false →
  let path := Py.os_path_join "/tmp"
                [name +:+ Py.strftime "%Y-%M-%d-%H-%M-%S" now] in
  init' wc now form fs
  = (Raise (RuntimeError msg_bad_algorithm), <[path := up_content up]> fs)
  ∧ (init' wc now form fs).2 !! path = Some (up_content up).
Proof.
  intros Hup Hname Hne Hdoc Halg path.
  destruct name as [|c name]; [done|].
  assert (H : init' wc now form fs
              = (Raise (RuntimeError msg_bad_algorithm),
                 <[path := up_content up]> fs)).
  { unfold init', Config_init. by rewrite Hup, Hdoc, Hname, Halg. }
  split; [done|]. rewrite H. apply lookup_insert_eq.
Qed.

(** X4: the constructor writes at most one file.  Whatever the request
    and the outcome, every path other than the temporary path of the
    upload holds afterwards what it held before; with no upload entry, or
    an upload without a file name, the file system is unchanged. *)
Theorem X4_no_other_file_is_touched (wc : WebConfig) (now : Py.datetime)
    (form : FieldStorage) (fs : filesystem) :
  (∀ path,
     (∀ up name, stardata form = Some up → up_filename up = Some name →
        path ≠ Py.os_path_join "/tmp"
                 [name +:+ Py.strftime "%Y-%M-%d-%H-%M-%S" now]) →
     (init' wc now form fs).2 !! path = fs !! path) ∧
  ((∀ up, stardata form = Some up → Py.truthy (up_filename up) = false) →
   (init' wc now form fs).2 = fs).
Proof.
  unfold init', Config_init.
  destruct (stardata form) as [up|]; [|by split].
  destruct (validate py_int form) as [doc|]; [|by split].
  split.
  - intros path Hpath.
    destruct (up_filename up) as [[|c name]|] eqn:Hname;
      destruct (negb _); try done;
      simpl; rewrite lookup_insert_ne; [done| |done|];
      intros E; by apply (Hpath up (String c name)).
  - intros Hno. specialize (Hno up eq_refl).
    destruct (up_filename up) as [[|c name]|]; [|done|];
      by destruct (negb _).
Qed.


(** X6: temporary names collide.  Two valid requests that carry an
    upload of the same file name and are constructed within the same
    second get the same temporary path, and the second construction
    replaces the bytes of the first. *)
Theorem X6_same_second_uploads_collide (wc : WebConfig) (now : Py.datetime)
    (form1 form2 : FieldStorage) (fs : filesystem) (up1 up2 : Upload) :
  valid_form py_int form1 = true → valid_form py_int form2 = true →
  stardata form1 = Some up1 → stardata form2 = Some up2 →
  Py.truthy (up_filename up1) = true →
  up_filename up2 = up_filename up1 →
  ∃ cfg1 fs1 cfg2 fs2,
    init' wc now form1 fs = (Return cfg1, fs1) ∧
    init' wc now form2 fs1 = (Return cfg2, fs2) ∧
    filepath cfg2 = filepath cfg1 ∧
    fs1 !! filepath cfg1 = Some (up_content up1) ∧
    fs2 !! filepath cfg1 = Some (up_content up2).
Proof.
  intros Hv1 Hv2 Hup1 Hup2 Ht Hsame.
  destruct (init_valid ion_Z Star_ok validate_email_ok time2human py_int
              DATA_DIR wc now form1 fs Hv1)
    as (up1' & doc1 & cfg1 & fs1 & Hup1' & _ & _ & Hinit1 & Hb1).
  rewrite Hup1 in Hup1'. injection Hup1' as <-.
  destruct (init_valid ion_Z Star_ok validate_email_ok time2human py_int
              DATA_DIR wc now form2 fs1 Hv2)
    as (up2' & doc2 & cfg2 & fs2 & Hup2' & _ & _ & Hinit2 & Hb2).
  rewrite Hup2 in Hup2'. injection Hup2' as <-.
  assert (Ht2 : Py.truthy (up_filename up2) = true) by by rewrite Hsame.
  destruct (built_upload_written _ _ _ _ _ _ _ _ _ _ _ _ Hb1 Ht)
    as (Hn1 & Hp1 & Hfs1).
  destruct (built_upload_written _ _ _ _ _ _ _ _ _ _ _ _ Hb2 Ht2)
    as (Hn2 & Hp2 & Hfs2).
  assert (Hpath : filepath cfg2 = filepath cfg1).
  { rewrite Hp1, Hp2. rewrite Hsame, Hn1 in Hn2. injection Hn2 as ->.
    by rewrite (b_start_time _ _ _ _ _ _ _ _ _ _ _ _ Hb1),
      (b_start_time _ _ _ _ _ _ _ _ _ _ _ _ Hb2). }
  rewrite Hpath in Hfs2. by exists cfg1, fs1, cfg2, fs2.
Qed.

End ConstructorMore.

(** ** Further properties of the admission checks *)

Section ChecksMore.

  Variable Star_ok : string → bool.
  Variable validate_email_ok : string → bool.

Let rules := admission_rules Star_ok validate_email_ok.

(** The six messages of a configuration are pairwise different. *)
Lemma admission_messages_NoDup (self : Config) : NoDup (rules self).*2.
Proof.
  unfold rules, admission_rules. cbn [fmap list_fmap snd].
  assert (He : ∀ m,
            m ∈ [msg_star; msg_sol_size; msg_pop_size; msg_time_limit;
                 msg_pdf] → m ≠ msg_email (email self)).
  { intros m Hm E. by apply (msg_email_fixed (email self) m). }
  repeat (apply NoDup_cons; split;
          [rewrite ?not_elem_of_cons; repeat split;
           first [ apply not_elem_of_nil | discriminate
                 | apply He; set_solver
                 | apply not_eq_sym, He; set_solver ]|]).
  apply NoDup_nil_2.
Qed.

(** A message in the list is the message of a failing rule with that
    text, and the rule is the only one with that text. *)
Lemma rule_of_message (self : Config) (failed : bool) (msg : string) :
  (failed, msg) ∈ rules self →
  ((true, msg) ∈ rules self ↔ failed = true).
Proof.
  intros Hin. split; [|by intros ->].
  intros Hin'. destruct failed; [done|]. exfalso.
  pose proof (admission_messages_NoDup self) as Hnd.
  apply list_elem_of_lookup in Hin as [i Hi].
  apply list_elem_of_lookup in Hin' as [j Hj].
  assert (i = j) as ->.
  { apply (NoDup_lookup _ i j msg Hnd);
      rewrite list_lookup_fmap; [by rewrite Hi|by rewrite Hj]. }
  congruence.
Qed.

End ChecksMore.

Section AdmissionMore.

  Variable ion_Z : string → Z.
  Variable Star_ok : string → bool.
  Variable validate_email_ok : string → bool.
  Variable time2human : Z → string.
  Variable py_int : string → option Z.
  Variable DATA_DIR : string.

Let construct := Config_init ion_Z Star_ok validate_email_ok time2human
                   py_int DATA_DIR.

(** Membership in the errors of a constructed configuration, rule by
    rule. *)
Lemma errors_rule (wc : WebConfig) (now : Py.datetime) (up : Upload)
    (doc : Doc.t) (fs fs' : filesystem) (cfg : Config) (failed : bool)
    (msg : string) :
  built ion_Z Star_ok validate_email_ok time2human DATA_DIR
    wc now up doc fs cfg fs' →
  (failed, msg) ∈ admission_rules Star_ok validate_email_ok cfg →
  (msg ∈ errors cfg ↔ failed = true).
Proof.
  intros Hb Hin.
  rewrite (b_errors _ _ _ _ _ _ _ _ _ _ _ _ Hb), check_admission_errors,
    elem_of_admission_errors.
  by apply rule_of_message.
Qed.

Lemma built_mail (wc : WebConfig) (now : Py.datetime) (up : Upload)
    (doc : Doc.t) (fs fs' : filesystem) (cfg : Config) :
  built ion_Z Star_ok validate_email_ok time2human DATA_DIR
    wc now up doc fs cfg fs' →
  mail cfg = negb (String.eqb (email cfg) "").
Proof. intros Hb. destruct Hb. congruence. Qed.

(** X7: on every valid request each of the other messages is in the
    errors list exactly under its own condition: the solution size one
    when [sol_size > 10], the population one when [pop_size > 1000], the
    PDF one when the plot format is [pdf] and the email field is empty,
    and the one naming the address when the email field is not empty and
    the address does not validate. *)
Theorem X7_each_message_has_its_condition (wc : WebConfig)
    (now : Py.datetime) (form : FieldStorage) (fs : filesystem) :
  valid_form py_int form = true →
  ∃ cfg, (construct wc now form fs).1 = Return cfg ∧
    (msg_sol_size ∈ errors cfg ↔ sol_size cfg > 10) ∧
    (msg_pop_size ∈ errors cfg ↔ pop_size cfg > 1000) ∧
    (msg_pdf ∈ errors cfg ↔ plotformat cfg = "pdf" ∧ email cfg = "") ∧
    (msg_email (email cfg) ∈ errors cfg
     ↔ email cfg ≠ "" ∧ validate_email_ok (email cfg) = false).
Proof.
  intros Hv.
  destruct (init_valid ion_Z Star_ok validate_email_ok time2human py_int
              DATA_DIR wc now form fs Hv)
    as (up & doc & cfg & fs' & _ & _ & _ & Hinit & Hb).
  pose proof (built_mail _ _ _ _ _ _ _ Hb) as Hm.
  exists cfg. unfold construct. rewrite Hinit. split; [done|].
  split; [|split; [|split]].
  - rewrite (errors_rule _ _ _ _ _ _ _ (sol_size cfg >? 10) _ Hb)
      by (unfold admission_rules; set_solver).
    apply Z.gtb_gt.
  - rewrite (errors_rule _ _ _ _ _ _ _ (pop_size cfg >? 1000) _ Hb)
      by (unfold admission_rules; set_solver).
    apply Z.gtb_gt.
  - rewrite (errors_rule _ _ _ _ _ _ _
               (String.eqb (plotformat cfg) "pdf" && negb (mail cfg)) _ Hb)
      by (unfold admission_rules; set_solver).
    rewrite Hm, andb_true_iff, negb_involutive, !String.eqb_eq. done.
  - rewrite (errors_rule _ _ _ _ _ _ _
               (mail cfg && negb (validate_email_ok (email cfg))) _ Hb)
      by (unfold admission_rules; set_solver).
    rewrite Hm, andb_true_iff, !negb_true_iff, String.eqb_neq. done.
Qed.

(** X8: the errors list of a constructed configuration never repeats a
    message and never has more than five entries: the rule on the time
    limit needs an empty email field, the rule on the address a non-empty
    one. *)
Theorem X8_errors_distinct_at_most_five (wc : WebConfig)
    (now : Py.datetime) (form : FieldStorage) (fs : filesystem) :
  valid_form py_int form = true →
  ∃ cfg, (construct wc now form fs).1 = Return cfg ∧
    NoDup (errors cfg) ∧ (length (errors cfg) ≤ 5)%nat.
Proof.
  intros Hv.
  destruct (init_valid ion_Z Star_ok validate_email_ok time2human py_int
              DATA_DIR wc now form fs Hv)
    as (up & doc & cfg & fs' & _ & _ & _ & Hinit & Hb).
  exists cfg. unfold construct. rewrite Hinit. split; [done|].
  rewrite (b_errors _ _ _ _ _ _ _ _ _ _ _ _ Hb), check_admission_errors.
  split.
  - unfold admission_errors.
    apply (sublist_NoDup _
             (admission_rules Star_ok validate_email_ok cfg).*2);
      [apply admission_messages_NoDup
      |apply fmap_sublist; apply sublist_filter].
  - unfold admission_errors, admission_rules. rewrite length_fmap.
    destruct (Star_ok _), (sol_size cfg >? 10), (pop_size cfg >? 1000),
      (time_limit cfg >? 60), (mail cfg), (validate_email_ok _),
      (String.eqb (plotformat cfg) "pdf"); simpl; lia.
Qed.

(** X9: a valid request is admitted, its errors list empty, exactly when
    the loader accepts the file name, the solution size is at most 10,
    the population size at most 1000 and, with an email address, the
    address validates, or, without one, the time limit is at most 60 and
    the plot format is not [pdf]. *)
Theorem X9_admitted_iff (wc : WebConfig) (now : Py.datetime)
    (form : FieldStorage) (fs : filesystem) :
  valid_form py_int form = true →
  ∃ cfg, (construct wc now form fs).1 = Return cfg ∧
    (errors cfg = []
     ↔ Star_ok (filename cfg) = true ∧ sol_size cfg ≤ 10 ∧
       pop_size cfg ≤ 1000 ∧
       (email cfg ≠ "" → validate_email_ok (email cfg) = true) ∧
       (email cfg = "" → time_limit cfg ≤ 60 ∧ plotformat cfg ≠ "pdf")).
Proof.
  intros Hv.
  destruct (init_valid ion_Z Star_ok validate_email_ok time2human py_int
              DATA_DIR wc now form fs Hv)
    as (up & doc & cfg & fs' & _ & _ & _ & Hinit & Hb).
  pose proof (built_mail _ _ _ _ _ _ _ Hb) as Hm.
  exists cfg. unfold construct. rewrite Hinit. split; [done|].
  rewrite (b_errors _ _ _ _ _ _ _ _ _ _ _ _ Hb), check_admission_errors.
  unfold admission_errors, admission_rules. rewrite Hm.
  destruct (Star_ok _), (Z.gtb_spec (sol_size cfg) 10),
    (Z.gtb_spec (pop_size cfg) 1000), (Z.gtb_spec (time_limit cfg) 60),
    (String.eqb_spec (email cfg) ""), (validate_email_ok _),
    (String.eqb_spec (plotformat cfg) "pdf"); simpl;
    (split; [intros Herr; try discriminate Herr
            |intros (Hc1 & Hc2 & Hc3 & Hc4 & Hc5)]);
    try done; try lia;
    try (repeat split; first [done | lia]);
    try (by specialize (Hc4 ltac:(done)));
    try (destruct (Hc5 ltac:(done)) as [? ?]; first [done | lia]).
Qed.

(** X10: with [single] or [double] the message on the solution size is
    never in the errors list, whatever [sol_size] the form carries. *)
Theorem X10_forced_sol_size_is_admitted (wc : WebConfig)
    (now : Py.datetime) (form : FieldStorage) (fs : filesystem) :
  valid_form py_int form = true →
  ∃ cfg, (construct wc now form fs).1 = Return cfg ∧
    (algorithm cfg = "single" ∨ algorithm cfg = "double" →
     msg_sol_size ∉ errors cfg).
Proof.
  intros Hv.
  destruct (init_valid ion_Z Star_ok validate_email_ok time2human py_int
              DATA_DIR wc now form fs Hv)
    as (up & doc & cfg & fs' & _ & _ & _ & Hinit & Hb).
  exists cfg. unfold construct. rewrite Hinit. split; [done|].
  rewrite (errors_rule _ _ _ _ _ _ _ (sol_size cfg >? 10) _ Hb)
    by (unfold admission_rules; set_solver).
  rewrite (b_sol_size _ _ _ _ _ _ _ _ _ _ _ _ Hb),
    (b_algorithm _ _ _ _ _ _ _ _ _ _ _ _ Hb).
  by intros [-> | ->].
Qed.

(** X11: with [double] the expected time always reads
    [in more than 10 minutes] and the request is refused for its time
    limit exactly when the email field is empty; with [single] the
    expected time always reads [now]. *)
Theorem X11_forced_time_limit (wc : WebConfig) (now : Py.datetime)
    (form : FieldStorage) (fs : filesystem) :
  valid_form py_int form = true →
  ∃ cfg, (construct wc now form fs).1 = Return cfg ∧
    (algorithm cfg = "double" →
     time_eta cfg = "in more than 10 minutes" ∧
     (msg_time_limit ∈ errors cfg ↔ email cfg = "")) ∧
    (algorithm cfg = "single" → time_eta cfg = "now").
Proof.
  intros Hv.
  destruct (init_valid ion_Z Star_ok validate_email_ok time2human py_int
              DATA_DIR wc now form fs Hv)
    as (up & doc & cfg & fs' & _ & _ & _ & Hinit & Hb).
  pose proof (built_mail _ _ _ _ _ _ _ Hb) as Hm.
  exists cfg. unfold construct. rewrite Hinit. split; [done|].
  rewrite (b_time_eta _ _ _ _ _ _ _ _ _ _ _ _ Hb).
  rewrite (errors_rule _ _ _ _ _ _ _
             ((time_limit cfg >? 60) && negb (mail cfg)) _ Hb)
    by (unfold admission_rules; set_solver).
  rewrite Hm, (b_time_limit _ _ _ _ _ _ _ _ _ _ _ _ Hb),
    (b_algorithm _ _ _ _ _ _ _ _ _ _ _ _ Hb).
  split; intros ->; cbn; [|done]. split; [done|].
  change (60 * 15 >? 60) with true.
  by rewrite negb_involutive, andb_true_l, String.eqb_eq.
Qed.

(** What a successful validation says about the remaining fields. *)
Lemma validate_Some_rest (form : FieldStorage) (doc : Doc.t) :
  validate py_int form = Some doc →
  coerce_int py_int (getfirst form "z_min") = Some (Doc.z_min doc) ∧
  coerce_int py_int (getfirst form "z_max") = Some (Doc.z_max doc) ∧
  coerce_int py_int (getfirst form "combine_mode")
    = Some (Doc.combine_mode doc) ∧
  coerce_int py_int (getfirst form "fixed") = Some (Doc.fixed doc) ∧
  coerce_bool (getfirst form "cdf") = Some (Doc.cdf doc).
Proof.
  unfold validate. intros H. simplify_option_eq. by repeat split.
Qed.

(** The attributes that pass through the constructor unchanged. *)
Lemma init_valid_rest (wc : WebConfig) (now : Py.datetime)
    (form : FieldStorage) (fs : filesystem) :
  valid_form py_int form = true →
  ∃ doc cfg fs',
    validate py_int form = Some doc ∧
    construct wc now form fs = (Return cfg, fs') ∧
    algorithm cfg = Doc.algorithm doc ∧
    z_min cfg = Doc.z_min doc ∧ z_max cfg = Doc.z_max doc ∧
    combine_mode cfg = Doc.combine_mode doc ∧
    fixed cfg = Doc.fixed doc ∧ cdf cfg = Doc.cdf doc.
Proof.
  unfold valid_form, construct, Config_init. intros H.
  destruct (stardata form) as [up|]; [|done].
  destruct (validate py_int form) as [doc|]; [|done].
  rewrite H. exists doc.
  destruct (up_filename up) as [[|c name]|];
    (eexists _, _; split; [done|]; split; [reflexivity|]; by repeat split).
Qed.

(** X12: the [cdf] flag is the truth value of the submitted text, not
    its meaning: every non-empty text, [0] and [False] included, gives
    [True], and only the empty text gives [False]. *)
Theorem X12_cdf_is_text_truthiness (wc : WebConfig) (now : Py.datetime)
    (form : FieldStorage) (fs : filesystem) (text : string) :
  valid_form py_int form = true →
  getfirst form "cdf" = Some text →
  ∃ cfg, (construct wc now form fs).1 = Return cfg ∧
    (cdf cfg = true ↔ text ≠ "").
Proof.
  intros Hv Htext.
  destruct (init_valid_rest wc now form fs Hv)
    as (doc & cfg & fs' & Hdoc & Hinit & _ & _ & _ & _ & _ & Hcdf).
  apply validate_Some_rest in Hdoc as (_ & _ & _ & _ & Hc).
  exists cfg. rewrite Hinit, Hcdf. split; [done|].
  rewrite Htext in Hc. injection Hc as <-. by destruct text.
Qed.


End AdmissionMore.

(** ** The read-only queries *)

Lemma eqb_join_plus_nil (x y : string) :
  String.eqb (x +:+ "+" +:+ y) "" = false.
Proof. by destruct x. Qed.

Lemma plus_in_join (x y : string) :
  "+"%char ∈ list_ascii_of_string (x +:+ "+" +:+ y).
Proof.
  rewrite chars_append. apply elem_of_app. right. apply list_elem_of_here.
Qed.

(** X14: [combine_elements_str] joins the symbols of carbon and nitrogen
    (and oxygen) with [+] for combine mode 1 (and 2) and is the text
    [None] for every other mode; it is never the empty text, and it is
    [None] for no mode but those others, whatever the symbols are. *)
Theorem X14_combine_elements_str (element_symbol : Z → string)
    (self : Config) :
  let text := combine_elements_str element_symbol self in
  text
  = (if combine_mode self =? 1
     then element_symbol 6 +:+ "+" +:+ element_symbol 7
     else if combine_mode self =? 2
     then element_symbol 6 +:+ "+" +:+ element_symbol 7 +:+ "+"
          +:+ element_symbol 8
     else "None") ∧
  text ≠ "" ∧
  String.eqb text "None"
  = negb (combine_mode self =? 1) && negb (combine_mode self =? 2).
Proof.
  cbv zeta. unfold combine_elements_str, combine_elements.
  assert (Hne : ∀ x y, x +:+ "+" +:+ y ≠ "None").
  { intros x y E. pose proof (plus_in_join x y) as Hin. rewrite E in Hin.
    cbn in Hin.
    repeat (apply elem_of_cons in Hin as [Hin|Hin]; [discriminate Hin|]).
    by apply elem_of_nil in Hin. }
  destruct (combine_mode self =? 1); [|destruct (combine_mode self =? 2)];
    cbn [fold_left map app str_join];
    rewrite ?eqb_join_plus_nil; cbn [negb andb].
  - split; [done|]. split; [by destruct (element_symbol 6)|].
    apply String.eqb_neq, Hne.
  - split; [done|]. split; [by destruct (element_symbol 6)|].
    apply String.eqb_neq, Hne.
  - by repeat split.
Qed.

(** Splitting distributes over a comma. *)
Lemma split_comma_append (a b : string) :
  Py.split_comma (a +:+ "," +:+ b) = Py.split_comma a ++ Py.split_comma b.
Proof.
  induction a as [|c a IH]; [done|].
  change (String c a +:+ "," +:+ b) with (String c (a +:+ "," +:+ b)).
  cbn [Py.split_comma]. rewrite IH.
  destruct (Ascii.eqb c ","); [done|].
  by destruct (split_comma_cons a) as (tok & toks & ->).
Qed.

(** X15: parsing an element list is compositional: the list parsed from
    two texts joined by a comma is the list of the first followed by the
    list of the second. *)
Theorem X15_parse_elements_append (ion_Z : string → Z) (a b : string) :
  parse_elements ion_Z (a +:+ "," +:+ b)
  = parse_elements ion_Z a ++ parse_elements ion_Z b.
Proof.
  unfold parse_elements.
  by rewrite split_comma_append, map_app, filter_app.
Qed.

(** Rendering the symbols of the parsed numbers gives the known tokens
    back when the resolver round-trips on them. *)
Lemma symbols_of_parsed (ion_Z : string → Z) (element_symbol : Z → string)
    (toks : list string) :
  (∀ tok, tok ∈ toks → ion_Z tok ≠ 0 → element_symbol (ion_Z tok) = tok) →
  map element_symbol (filter (λ z, z ≠ 0) (map ion_Z toks))
  = filter (λ tok, ion_Z tok ≠ 0) toks.
Proof.
  induction toks as [|tok toks IH]; [done|]. intros Hrt.
  cbn [map]. rewrite !filter_cons.
  destruct (decide (ion_Z tok ≠ 0)) as [Hz|Hz].
  - cbn [map]. rewrite Hrt; [|set_solver|done]. f_equal.
    apply IH. intros t Ht. apply Hrt. set_solver.
  - apply IH. intros t Ht. apply Hrt. set_solver.
Qed.

(** X16: reading the excluded elements of a built configuration back.
    When every token of the submitted [z_exclude] that resolves to an
    element is the symbol of that element, [get_exc_string] is those
    tokens, in their order and with their repetitions, joined by a comma
    and a blank, or the text [None] when that is empty. *)
Theorem X16_exc_string_round_trip (ion_Z : string → Z)
    (Star_ok validate_email_ok : string → bool) (time2human : Z → string)
    (py_int : string → option Z) (DATA_DIR : string)
    (element_symbol : Z → string)
    (wc : WebConfig) (now : Py.datetime) (form : FieldStorage)
    (fs : filesystem) (raw : string) :
  valid_form py_int form = true →
  coerce_str (getfirst form "z_exclude") = Some raw →
  (∀ tok, tok ∈ Py.split_comma raw → ion_Z tok ≠ 0 →
     element_symbol (ion_Z tok) = tok) →
  ∃ cfg,
    (Config_init ion_Z Star_ok validate_email_ok time2human py_int DATA_DIR
       wc now form fs).1 = Return cfg ∧
    let known := filter (λ tok, ion_Z tok ≠ 0) (Py.split_comma raw) in
    get_exc_string element_symbol cfg
    = if String.eqb (str_join ", " known) "" then "None"
      else str_join ", " known.
Proof.
  intros Hv Hraw Hrt.
  destruct (init_valid ion_Z Star_ok validate_email_ok time2human py_int
              DATA_DIR wc now form fs Hv)
    as (up & doc & cfg & fs' & _ & Hdoc & _ & Hinit & Hb).
  apply validate_Some in Hdoc as (_ & _ & _ & _ & _ & _ & _ & Hze & _).
  rewrite Hraw in Hze. injection Hze as Hze.
  exists cfg. rewrite Hinit. split; [done|]. cbv zeta.
  unfold get_exc_string.
  rewrite (b_z_exclude _ _ _ _ _ _ _ _ _ _ _ _ Hb), <- Hze.
  unfold parse_elements. by rewrite symbols_of_parsed.
Qed.

(** ** The image tag *)

Ltac n_arith := zify; Z.to_euclidean_division_equations; lia.

Lemma list_ind3 {A : Type} (P : list A → Prop) :
  P [] → (∀ a, P [a]) → (∀ a b, P [a; b]) →
  (∀ a b c rest, P rest → P (a :: b :: c :: rest)) →
  ∀ l, P l.
Proof.
  intros H0 H1 H2 H3. fix F 1.
  intros [|a [|b [|c rest]]];
    [apply H0 | apply H1 | apply H2 | apply H3, F].
Qed.

(** The table of sextets, checked entry by entry. *)
Lemma sextet_table :
  forallb (λ k, let n := N.of_nat k in
                N.eqb (Base64.unsextet (Base64.sextet n)) n
                && negb (Ascii.eqb (Base64.sextet n) "="))
    (seq 0 64) = true.
Proof. reflexivity. Qed.

Lemma sextet_spec (n : N) :
  (n < 64)%N →
  Base64.unsextet (Base64.sextet n) = n
  ∧ Ascii.eqb (Base64.sextet n) "=" = false.
Proof.
  intros Hn.
  pose proof (proj1 (forallb_forall _ _) sextet_table (N.to_nat n)) as H.
  cbv beta zeta in H. rewrite N2Nat.id in H.
  assert (Hin : In (N.to_nat n) (seq 0 64)) by (apply in_seq; lia).
  apply H in Hin. apply andb_true_iff in Hin as [H1 H2].
  split; [by apply N.eqb_eq|by apply negb_true_iff].
Qed.

Lemma sextet_b64char (n : N) : Base64.is_b64char (Base64.sextet n) = true.
Proof.
  unfold Base64.is_b64char, Base64.sextet. apply existsb_exists.
  exists (nth (N.to_nat n) (list_ascii_of_string Base64.alphabet) "="%char).
  split; [|apply Ascii.eqb_refl].
  destruct (nth_in_or_default (N.to_nat n)
              (list_ascii_of_string Base64.alphabet) "="%char) as [Hin| ->].
  - rewrite chars_append. apply in_or_app. by left.
  - rewrite chars_append. apply in_or_app. right. by left.
Qed.

(** A character of the Base64 text is printed by [repr] as it is, and
    is no quote. *)
Lemma b64char_plain (c : ascii) :
  Base64.is_b64char c = true →
  repr_byte "'" c = String c "" ∧ Ascii.eqb c "'" = false.
Proof.
  intros [x [Hin Hx]]%existsb_exists. apply Ascii.eqb_eq in Hx as <-.
  assert (Hall : forallb (λ c, String.eqb (repr_byte "'" c) (String c "")
                                && negb (Ascii.eqb c "'"))
                   (list_ascii_of_string (Base64.alphabet +:+ "=")) = true)
    by reflexivity.
  apply (proj1 (forallb_forall _ _) Hall) in Hin.
  apply andb_true_iff in Hin as [H1 H2].
  split; [by apply String.eqb_eq|by apply negb_true_iff].
Qed.

Lemma b64encode_chars (data : list Byte.byte) :
  Forall (λ c, Base64.is_b64char c = true)
    (list_ascii_of_string (Base64.b64encode data)).
Proof.
  induction data as [|a|a b|a b c rest IH] using list_ind3;
    cbn [Base64.b64encode list_ascii_of_string];
    repeat (constructor; [first [apply sextet_b64char | reflexivity]|]);
    first [done | constructor].
Qed.

(** [repr] of a text without quotes, backslashes or unprintable bytes
    is the text between [b'] and ['], and the slice takes it out again. *)
Lemma bytes_repr_plain (s : string) :
  Forall (λ c, repr_byte "'" c = String c "" ∧ Ascii.eqb c "'" = false)
    (list_ascii_of_string s) →
  bytes_repr s = String "b" (String "'" (s +:+ "'"))
  ∧ slice_2_m1 (bytes_repr s) = s.
Proof.
  intros Hplain.
  assert (Hq : repr_quote s = "'"%char).
  { unfold repr_quote.
    assert (existsb (Ascii.eqb "'") (list_ascii_of_string s) = false) as ->;
      [|done].
    induction Hplain as [|c l [_ Hc] _ IH]; [done|]. cbn [existsb].
    rewrite Ascii.eqb_sym, Hc. exact IH. }
  assert (Hr : bytes_repr s = String "b" (String "'" (s +:+ "'"))).
  { unfold bytes_repr. rewrite Hq. do 2 f_equal. clear Hq.
    induction s as [|c s IH]; [done|].
    apply Forall_cons in Hplain as [[Hc _] Hrest].
    cbn [list_ascii_of_string fold_right]. rewrite Hc, IH by done.
    reflexivity. }
  split; [done|]. rewrite Hr. unfold slice_2_m1.
  cbn [list_ascii_of_string drop]. rewrite chars_append.
  change (list_ascii_of_string "'") with ["'"%char].
  rewrite drop_0.
  by rewrite removelast_last, string_of_list_ascii_of_string.
Qed.

Lemma tag_shape (data : list Byte.byte) (format : string) :
  bytes_repr (Base64.b64encode data)
  = String "b" (String "'" (Base64.b64encode data +:+ "'")) ∧
  convert_img_to_b64_tag data format
  = object_tag (if String.eqb format "svg" then "svg+xml" else format)
      (Base64.b64encode data).
Proof.
  assert (Hplain : Forall (λ c, repr_byte "'" c = String c ""
                                ∧ Ascii.eqb c "'" = false)
                     (list_ascii_of_string (Base64.b64encode data))).
  { eapply Forall_impl; [apply b64encode_chars|]. apply b64char_plain. }
  destruct (bytes_repr_plain _ Hplain) as [Hr Hs].
  split; [done|]. unfold convert_img_to_b64_tag. rewrite Hs.
  by destruct (String.eqb_spec format "svg") as [->|_].
Qed.

(** X17: the tag embeds the Base64 text itself.  [str()] of the encoded
    bytes is their [repr], and since Base64 text holds no quote,
    backslash or unprintable byte, cutting two characters at the front
    and one at the end leaves exactly the encoded text; the media type is
    [svg+xml] for the format [svg] and the format itself otherwise. *)
Theorem X17_tag_embeds_base64_text (data : list Byte.byte)
    (format : string) :
  bytes_repr (Base64.b64encode data)
  = String "b" (String "'" (Base64.b64encode data +:+ "'")) ∧
  convert_img_to_b64_tag data format
  = object_tag (if String.eqb format "svg" then "svg+xml" else format)
      (Base64.b64encode data).
Proof. apply tag_shape. Qed.

(** X18: the Base64 text of [n] bytes has [4 * ceil(n / 3)] characters,
    all of them letters, digits, [+], [/] or the padding [=]; so it
    holds no double quote that would end the [data] attribute. *)
Theorem X18_base64_length_and_alphabet (data : list Byte.byte) :
  String.length (Base64.b64encode data) = (4 * ((length data + 2) / 3))%nat ∧
  Forall (λ c, Base64.is_b64char c = true)
    (list_ascii_of_string (Base64.b64encode data)) ∧
  "034"%char ∉ list_ascii_of_string (Base64.b64encode data).
Proof.
  split; [|split; [apply b64encode_chars|]].
  - induction data as [|a|a b|a b c rest IH] using list_ind3;
      [done|done|done|].
    cbn [Base64.b64encode String.length length]. rewrite IH.
    replace (S (S (S (length rest))) + 2)%nat
      with (length rest + 2 + 1 * 3)%nat by lia.
    rewrite Nat.div_add by lia. lia.
  - intros Hin.
    pose proof (proj1 (Forall_forall _ _) (b64encode_chars data) _ Hin).
    done.
Qed.

Ltac sextets :=
  repeat match goal with
    | |- context [Base64.unsextet (Base64.sextet ?e)] =>
        rewrite (proj1 (sextet_spec e ltac:(n_arith)))
    | |- context [Ascii.eqb (Base64.sextet ?e) "="%char] =>
        rewrite (proj2 (sextet_spec e ltac:(n_arith)))
    end.

Lemma byte_of_to_N (a : Byte.byte) (n : N) :
  n = Byte.to_N a → Base64.byte_of n = a.
Proof. intros ->. unfold Base64.byte_of. by rewrite Byte.of_to_N. Qed.

(** Decoding the encoded text gives the bytes back. *)
Lemma b64decode_encode (data : list Byte.byte) :
  Base64.b64decode (Base64.b64encode data) = data.
Proof.
  induction data as [|a|a b|a b c rest IH] using list_ind3; [done| | |].
  - pose proof (Byte.to_N_bounded a).
    cbn [Base64.b64encode Base64.b64decode]. cbv zeta.
    change (Ascii.eqb "=" "=") with true. cbv iota.
    f_equal. apply byte_of_to_N. sextets. n_arith.
  - pose proof (Byte.to_N_bounded a). pose proof (Byte.to_N_bounded b).
    cbn [Base64.b64encode Base64.b64decode]. cbv zeta. sextets.
    change (Ascii.eqb "=" "=") with true. cbv iota.
    f_equal; [|f_equal]; apply byte_of_to_N; n_arith.
  - pose proof (Byte.to_N_bounded a). pose proof (Byte.to_N_bounded b).
    pose proof (Byte.to_N_bounded c).
    cbn [Base64.b64encode Base64.b64decode]. cbv zeta. sextets. cbv iota.
    rewrite IH.
    f_equal; [|f_equal; [|f_equal]]; apply byte_of_to_N; n_arith.
Qed.

Lemma append_inj_l (a x y : string) : a +:+ x = a +:+ y → x = y.
Proof.
  induction a as [|c a IH]; [done|].
  change (String c (a +:+ x) = String c (a +:+ y) → x = y).
  intros H. injection H as H. by apply IH.
Qed.

Lemma append_inj_r (x y b : string) : x +:+ b = y +:+ b → x = y.
Proof.
  intros H. apply (f_equal list_ascii_of_string) in H.
  rewrite !chars_append in H. apply app_inv_tail in H.
  apply (f_equal string_of_list_ascii) in H.
  by rewrite !string_of_list_ascii_of_string in H.
Qed.

(** The payload can be read off the tag. *)
Lemma object_tag_inj (typestr p1 p2 : string) :
  object_tag typestr p1 = object_tag typestr p2 → p1 = p2.
Proof.
  unfold object_tag. intros H.
  apply append_inj_l in H. injection H as H.
  do 3 apply append_inj_l in H. by apply append_inj_r in H.
Qed.

(** X19: the tag determines the image.  Different bytes give different
    Base64 texts, and so different tags for the same format. *)
Theorem X19_tag_determines_image (data1 data2 : list Byte.byte)
    (format : string) :
  data1 ≠ data2 →
  Base64.b64encode data1 ≠ Base64.b64encode data2 ∧
  convert_img_to_b64_tag data1 format ≠ convert_img_to_b64_tag data2 format.
Proof.
  intros Hne.
  assert (Henc : Base64.b64encode data1 ≠ Base64.b64encode data2).
  { intros E. apply Hne.
    by rewrite <- (b64decode_encode data1), <- (b64decode_encode data2), E. }
  split; [done|]. intros E. apply Henc.
  rewrite !(proj2 (tag_shape _ format)) in E.
  by apply object_tag_inj in E.
Qed.

(** ** The further properties at the sample requests *)

(** X1 at a form whose [sol_size] reads [seven]. *)
Lemma X1_witness :
  is_Some (stardata Demo.bad_integer_form) ∧
  coerce_int Demo.py_int (getfirst Demo.bad_integer_form "sol_size") = None ∧
  (Demo.init Demo.bad_integer_form).1 = Raise (RuntimeError "Bad form input") ∧
  (Demo.init Demo.bad_integer_form).2 = ∅.
Proof.
  split; [by eexists|]. split; [reflexivity|].
  destruct (X1_bad_integer_field_is_fatal Demo.ion_Z Demo.Star_ok
              Demo.validate_email_ok Demo.time2human Demo.py_int
              Demo.DATA_DIR Demo.web_config Demo.now Demo.bad_integer_form ∅
              (ex_intro _ Demo.star_upload eq_refl))
    as [Hiff Hfs].
  assert (Hraise : (Demo.init Demo.bad_integer_form).1
                   = Raise (RuntimeError "Bad form input")).
  { apply Hiff. exists "sol_size". split; [|reflexivity].
    unfold integer_keys. apply list_elem_of_here. }
  split; [exact Hraise|exact (Hfs Hraise)].
Defined.

(** X2 at a form with one more field than [ga_form]. *)
Lemma X2_witness :
  getfirst Demo.extra_field_form "token" = Some "abc" ∧
  getfirst Demo.ga_form "token" = None ∧
  Demo.init Demo.extra_field_form = Demo.init Demo.ga_form.
Proof.
  do 2 (split; [reflexivity|]).
  apply (X2_only_schema_keys_are_read Demo.ion_Z Demo.Star_ok
           Demo.validate_email_ok Demo.time2human Demo.py_int Demo.DATA_DIR
           Demo.web_config Demo.now Demo.extra_field_form Demo.ga_form ∅);
    [|reflexivity].
  intros key Hkey. unfold schema_keys in Hkey.
  repeat (apply elem_of_cons in Hkey as [->|Hkey]; [reflexivity|]).
  by apply elem_of_nil in Hkey.
Defined.

(** X3 at the algorithm [simplex] with the upload [star.dat]. *)
Lemma X3_witness :
  (Demo.init Demo.bad_algorithm_form).1
  = Raise (RuntimeError msg_bad_algorithm) ∧
  (Demo.init Demo.bad_algorithm_form).2
    !! "/tmp/star.dat2024-27-15-10-27-45"
  = Some (up_content Demo.star_upload).
Proof.
  destruct (validate Demo.py_int Demo.bad_algorithm_form) as [doc|] eqn:Hdoc;
    [|discriminate Hdoc].
  assert (Halg : is_algorithm (Doc.algorithm doc) = false).
  { vm_compute in Hdoc. by injection Hdoc as <-. }
  destruct (X3_bad_algorithm_leaves_upload Demo.ion_Z Demo.Star_ok
              Demo.validate_email_ok Demo.time2human Demo.py_int
              Demo.DATA_DIR Demo.web_config Demo.now Demo.bad_algorithm_form
              ∅ Demo.star_upload doc "star.dat" eq_refl eq_refl
              ltac:(discriminate) Hdoc Halg)
    as [Hinit Hfile].
  split; [exact (f_equal fst Hinit)|exact Hfile].
Defined.

(** X4 at an upload: another path stays absent; and at a request
    without a file name: nothing is written. *)
Lemma X4_witness :
  (Demo.init Demo.ga_form).2 !! "/tmp/other.dat" = None ∧
  (Demo.init Demo.admitted_form).2 = ∅.
Proof.
  destruct (X4_no_other_file_is_touched Demo.ion_Z Demo.Star_ok
              Demo.validate_email_ok Demo.time2human Demo.py_int
              Demo.DATA_DIR Demo.web_config Demo.now Demo.ga_form ∅)
    as [Hframe _].
  destruct (X4_no_other_file_is_touched Demo.ion_Z Demo.Star_ok
              Demo.validate_email_ok Demo.time2human Demo.py_int
              Demo.DATA_DIR Demo.web_config Demo.now Demo.admitted_form ∅)
    as [_ Hnone].
  split.
  - unfold Demo.init. rewrite (Hframe "/tmp/other.dat"); [reflexivity|].
    intros up name Hup Hname. injection Hup as <-. injection Hname as <-.
    discriminate.
  - apply Hnone. intros up Hup. injection Hup as <-. reflexivity.
Defined.


(** X6 at two uploads named [star.dat] in the same second. *)
Lemma X6_witness :
  valid_form Demo.py_int Demo.ga_form = true ∧
  valid_form Demo.py_int Demo.other_ga_form = true ∧
  up_content Demo.other_star_upload ≠ up_content Demo.star_upload ∧
  ∃ cfg1 fs1 cfg2 fs2,
    Demo.init Demo.ga_form = (Return cfg1, fs1) ∧
    Config_init Demo.ion_Z Demo.Star_ok Demo.validate_email_ok
      Demo.time2human Demo.py_int Demo.DATA_DIR Demo.web_config Demo.now
      Demo.other_ga_form fs1 = (Return cfg2, fs2) ∧
    fs1 !! filepath cfg1 = Some (up_content Demo.star_upload) ∧
    fs2 !! filepath cfg1 = Some (up_content Demo.other_star_upload).
Proof.
  do 2 (split; [reflexivity|]). split; [discriminate|].
  destruct (X6_same_second_uploads_collide Demo.ion_Z Demo.Star_ok
              Demo.validate_email_ok Demo.time2human Demo.py_int
              Demo.DATA_DIR Demo.web_config Demo.now Demo.ga_form
              Demo.other_ga_form ∅ Demo.star_upload Demo.other_star_upload
              eq_refl eq_refl eq_refl eq_refl eq_refl eq_refl)
    as (cfg1 & fs1 & cfg2 & fs2 & H1 & H2 & _ & Hf1 & Hf2).
  by exists cfg1, fs1, cfg2, fs2.
Defined.

(** X7 at a request out of every bound with the address [nobody]. *)
Lemma X7_witness :
  valid_form Demo.py_int Demo.refused_form = true ∧
  ∃ cfg, (Demo.init Demo.refused_form).1 = Return cfg ∧
    msg_sol_size ∈ errors cfg ∧ msg_pop_size ∈ errors cfg ∧
    (msg_pdf ∉ errors cfg) ∧
    "nobody is not a valid email." ∈ errors cfg.
Proof.
  split; [reflexivity|].
  destruct (X7_each_message_has_its_condition Demo.ion_Z Demo.Star_ok
              Demo.validate_email_ok Demo.time2human Demo.py_int
              Demo.DATA_DIR Demo.web_config Demo.now Demo.refused_form ∅
              eq_refl)
    as (cfg & Hinit & Hsol & Hpop & Hpdf & Hmail).
  exists cfg. split; [exact Hinit|].
  vm_compute in Hinit. injection Hinit as <-.
  split; [by apply Hsol|]. split; [by apply Hpop|].
  split; [by intros [_ ?]%Hpdf|]. by apply Hmail.
Defined.

(** X8 at the same request: four different messages. *)
Lemma X8_witness :
  valid_form Demo.py_int Demo.refused_form = true ∧
  ∃ cfg, (Demo.init Demo.refused_form).1 = Return cfg ∧
    length (errors cfg) = 4%nat ∧ NoDup (errors cfg).
Proof.
  split; [reflexivity|].
  destruct (X8_errors_distinct_at_most_five Demo.ion_Z Demo.Star_ok
              Demo.validate_email_ok Demo.time2human Demo.py_int
              Demo.DATA_DIR Demo.web_config Demo.now Demo.refused_form ∅
              eq_refl)
    as (cfg & Hinit & Hnd & _).
  exists cfg. split; [exact Hinit|]. split; [|exact Hnd].
  vm_compute in Hinit. by injection Hinit as <-.
Defined.

(** X9 at the built-in data set with ten seconds and an SVG plot. *)
Lemma X9_witness :
  valid_form Demo.py_int Demo.admitted_form = true ∧
  ∃ cfg, (Demo.init Demo.admitted_form).1 = Return cfg ∧ errors cfg = [].
Proof.
  split; [reflexivity|].
  destruct (X9_admitted_iff Demo.ion_Z Demo.Star_ok
              Demo.validate_email_ok Demo.time2human Demo.py_int
              Demo.DATA_DIR Demo.web_config Demo.now Demo.admitted_form ∅
              eq_refl)
    as (cfg & Hinit & Hiff).
  exists cfg. split; [exact Hinit|]. apply Hiff.
  vm_compute in Hinit. injection Hinit as <-.
  repeat split; try done; try lia.
Defined.

(** X10 at a [double] request asking for solution size 50. *)
Lemma X10_witness :
  valid_form Demo.py_int Demo.double_no_email_form = true ∧
  getfirst Demo.double_no_email_form "sol_size" = Some "50" ∧
  ∃ cfg, (Demo.init Demo.double_no_email_form).1 = Return cfg ∧
    msg_sol_size ∉ errors cfg.
Proof.
  do 2 (split; [reflexivity|]).
  destruct (X10_forced_sol_size_is_admitted Demo.ion_Z Demo.Star_ok
              Demo.validate_email_ok Demo.time2human Demo.py_int
              Demo.DATA_DIR Demo.web_config Demo.now
              Demo.double_no_email_form ∅ eq_refl)
    as (cfg & Hinit & Hnot).
  exists cfg. split; [exact Hinit|]. apply Hnot. right.
  vm_compute in Hinit. by injection Hinit as <-.
Defined.

(** X11 at a [double] request without an address. *)
Lemma X11_witness :
  valid_form Demo.py_int Demo.double_no_email_form = true ∧
  ∃ cfg, (Demo.init Demo.double_no_email_form).1 = Return cfg ∧
    time_eta cfg = "in more than 10 minutes" ∧
    msg_time_limit ∈ errors cfg.
Proof.
  split; [reflexivity|].
  destruct (X11_forced_time_limit Demo.ion_Z Demo.Star_ok
              Demo.validate_email_ok Demo.time2human Demo.py_int
              Demo.DATA_DIR Demo.web_config Demo.now
              Demo.double_no_email_form ∅ eq_refl)
    as (cfg & Hinit & Hdouble & _).
  exists cfg. split; [exact Hinit|].
  assert (Hc : algorithm cfg = "double" ∧ email cfg = "").
  { vm_compute in Hinit. by injection Hinit as <-. }
  destruct Hc as [Halg Hemail].
  destruct (Hdouble Halg) as [Heta Hiff].
  split; [exact Heta|]. by apply Hiff.
Defined.

(** X12 at the [cdf] text [0]: the flag is true. *)
Lemma X12_witness :
  valid_form Demo.py_int Demo.refused_form = true ∧
  getfirst Demo.refused_form "cdf" = Some "0" ∧
  ∃ cfg, (Demo.init Demo.refused_form).1 = Return cfg ∧ cdf cfg = true.
Proof.
  do 2 (split; [reflexivity|]).
  destruct (X12_cdf_is_text_truthiness Demo.ion_Z Demo.Star_ok
              Demo.validate_email_ok Demo.time2human Demo.py_int
              Demo.DATA_DIR Demo.web_config Demo.now Demo.refused_form ∅
              "0" eq_refl eq_refl)
    as (cfg & Hinit & Hiff).
  exists cfg. split; [exact Hinit|]. apply Hiff. discriminate.
Defined.


(** X16 at the text [C,Xx,O,C]: it is read back as [C, O, C]. *)
Lemma X16_witness :
  valid_form Demo.py_int Demo.ga_form = true ∧
  coerce_str (getfirst Demo.ga_form "z_exclude") = Some "C,Xx,O,C" ∧
  ∃ cfg, (Demo.init Demo.ga_form).1 = Return cfg ∧
    get_exc_string Demo.element_symbol cfg = "C, O, C".
Proof.
  do 2 (split; [reflexivity|]).
  destruct (X16_exc_string_round_trip Demo.ion_Z Demo.Star_ok
              Demo.validate_email_ok Demo.time2human Demo.py_int
              Demo.DATA_DIR Demo.element_symbol Demo.web_config Demo.now
              Demo.ga_form ∅ "C,Xx,O,C" eq_refl eq_refl)
    as (cfg & Hinit & Hstr).
  { intros tok Htok Hz. cbn in Htok.
    repeat (apply elem_of_cons in Htok as [->|Htok];
            [first [reflexivity | by destruct Hz]|]).
    by apply elem_of_nil in Htok. }
  exists cfg. split; [exact Hinit|]. rewrite Hstr. reflexivity.
Defined.

(** X19 at the bytes of [<svg/>] and the empty image. *)
Lemma X19_witness :
  Demo.svg_bytes ≠ [] ∧
  convert_img_to_b64_tag Demo.svg_bytes "svg"
  ≠ convert_img_to_b64_tag [] "svg".
Proof.
  split; [discriminate|].
  apply (X19_tag_determines_image Demo.svg_bytes [] "svg"). discriminate.
Defined.
